(** * DW_tool: the pipeline advancement rule, the email categorizer and the
      reply matcher of [api/app.py] and [api/microsoft_integration.py].

    The development is a shallow embedding: every Python function that the
    properties below talk about is transcribed as a Rocq function with the
    same name, the ORM session becomes an explicit state, exceptions become
    a result type, and [print] becomes a list of emitted lines. *)

From Stdlib Require Import ZArith String Ascii List DecimalString Bool Lia.
From stdpp Require Import gmap strings list sorting.

Set Warnings "-register-all".
Local Open Scope string_scope.
Local Open Scope list_scope.
Local Open Scope Z_scope.

(* ===================================================================== *)
(** ** Python values                                                      *)
(* ===================================================================== *)

(** Text is modelled by Rocq strings; the embedding covers ASCII text, on
    which [str.lower] only moves [A-Z] to [a-z]. *)
Module Py.

(** Exceptions that the embedded code can raise. The last two are the
    ORM's: [InvalidRequestError] stands for the error of a failed mapper
    configuration (the configuration error itself at the first query of the
    process, the [InvalidRequestError] that reports it at every later one)
    and for the refusal of a session whose flush has failed;
    [StatementError] for a statement that the driver refuses. *)
Inductive exn : Type :=
| AttributeError
| TypeError
| ValueError
| KeyError
| IndexError
| ConnectionError
| InvalidRequestError
| StatementError.

Definition ascii_lower (c : ascii) : ascii :=
  let n := nat_of_ascii c in
  if (Nat.leb 65 n && Nat.leb n 90)%bool then ascii_of_nat (n + 32) else c.

(** [s.lower()] *)
Fixpoint lower (s : string) : string :=
  match s with
  | EmptyString => EmptyString
  | String c r => String (ascii_lower c) (lower r)
  end.

(** [s.startswith(p)] *)
Definition startswith (s p : string) : bool := String.prefix p s.

(** [needle in hay] for two strings. *)
Fixpoint str_in (needle hay : string) : bool :=
  (String.prefix needle hay ||
   match hay with
   | EmptyString => false
   | String _ r => str_in needle r
   end)%bool.

(** [s[:n]] *)
Fixpoint slice_to (n : nat) (s : string) : string :=
  match n, s with
  | S n', String c r => String c (slice_to n' r)
  | _, _ => EmptyString
  end.

(** [s.replace(c, by)] for a one-character pattern [c]. *)
Fixpoint replace_char (c : ascii) (by_ : string) (s : string) : string :=
  match s with
  | EmptyString => EmptyString
  | String a r =>
      if Ascii.eqb a c then by_ +:+ replace_char c by_ r
      else String a (replace_char c by_ r)
  end.

(** [str(n)] for an integer. *)
Definition str_int (n : Z) : string := NilZero.string_of_int (Z.to_int n).

(** [str(x)] inside an f-string for a nullable text attribute. *)
Definition str_opt (x : option string) : string :=
  match x with Some s => s | None => "None" end.

(** Truth value of a nullable text attribute. *)
Definition truthy_str (x : option string) : bool :=
  match x with
  | Some EmptyString | None => false
  | Some _ => true
  end.

(** [x or d] for a nullable text attribute [x] and a string [d]. *)
Definition or_str (x : option string) (d : string) : string :=
  match x with
  | Some s => if truthy_str (Some s) then s else d
  | None => d
  end.

(** [x in l] for a list of strings. *)
Definition in_list (x : string) (l : list string) : bool :=
  existsb (String.eqb x) l.

(** Result of running a piece of code: a value or a raised exception. *)
Inductive result (A : Type) : Type :=
| Ok (a : A)
| Raise (e : exn).
Arguments Ok {A} a.
Arguments Raise {A} e.

(** [l.index(x)]: the position of the first occurrence, [ValueError]
    when there is none. *)
Fixpoint index (l : list string) (x : string) : result Z :=
  match l with
  | [] => Raise ValueError
  | y :: r =>
      if String.eqb y x then Ok 0
      else match index r x with
           | Ok i => Ok (i + 1)
           | Raise e => Raise e
           end
  end.

(** A decoded JSON document, as [json.loads] and [request.json] hand it
    to the code: [None], booleans, integers, strings, lists and dicts.
    Numbers with a fraction are left out. *)
Inductive json : Type :=
| JNull
| JBool (b : bool)
| JNum (n : Z)
| JStr (s : string)
| JArr (l : list json)
| JObj (d : gmap string json).

(** Truth value of a decoded JSON value ([if v:], [not v], [v or d]). *)
Definition truthy (v : json) : bool :=
  match v with
  | JNull => false
  | JBool b => b
  | JNum n => negb (n =? 0)
  | JStr s => negb (String.eqb s "")
  | JArr l => match l with [] => false | _ => true end
  | JObj d => negb (bool_decide (d = ∅))
  end.

(** [v == s] for a string literal [s]. *)
Definition eq_str (v : json) (s : string) : bool :=
  match v with
  | JStr t => String.eqb t s
  | _ => false
  end.

(** [v.get(k, dflt)]: only dicts have the method. *)
Definition get (v : json) (k : string) (dflt : json) : result json :=
  match v with
  | JObj d => Ok (default dflt (d !! k))
  | _ => Raise AttributeError
  end.

(** [v.lower()]: only strings have the method. *)
Definition lower_of (v : json) : result string :=
  match v with
  | JStr s => Ok (lower s)
  | _ => Raise AttributeError
  end.

(** [str(v)] inside an f-string, for a value that is a string wherever the
    embedded code formats it. *)
Definition text_of (v : json) : string :=
  match v with
  | JStr s => s
  | _ => ""
  end.

(** [str(v)] inside an f-string for a decoded JSON scalar. The rendering of
    lists and dicts is not modelled. *)
Definition str_json (v : json) : string :=
  match v with
  | JNull => "None"
  | JBool true => "True"
  | JBool false => "False"
  | JNum n => str_int n
  | JStr s => s
  | JArr _ => "[...]"
  | JObj _ => "{...}"
  end.

(** [v[0]] *)
Definition first_item (v : json) : result json :=
  match v with
  | JArr (x :: _) => Ok x
  | JArr [] => Raise IndexError
  | JStr (String c _) => Ok (JStr (String c EmptyString))
  | JStr EmptyString => Raise IndexError
  | JObj _ => Raise KeyError
  | _ => Raise TypeError
  end.

(** A nullable text attribute as a JSON value. *)
Definition json_of_opt (x : option string) : json :=
  match x with
  | Some s => JStr s
  | None => JNull
  end.

(** [str(e)] for a caught exception. The message text of an exception is
    not modelled; the name of its class stands for it. *)
Definition str_exn (e : exn) : string :=
  match e with
  | AttributeError => "AttributeError"
  | TypeError => "TypeError"
  | ValueError => "ValueError"
  | KeyError => "KeyError"
  | IndexError => "IndexError"
  | ConnectionError => "ConnectionError"
  | InvalidRequestError => "InvalidRequestError"
  | StatementError => "StatementError"
  end.

(** Truth value of a nullable integer attribute: [None] and [0] are false. *)
Definition truthy_int (x : option Z) : bool :=
  match x with
  | Some n => negb (n =? 0)
  | None => false
  end.

(** [timedelta(seconds=v)] for a decoded JSON value, in seconds. *)
Definition timedelta_seconds (v : json) : result Z :=
  match v with
  | JNum n => Ok n
  | JBool b => Ok (if b then 1 else 0)
  | _ => Raise TypeError
  end.

(** [for x in v]: the sequence the loop runs over. A dict yields its keys
    and a string its characters; [None], booleans and numbers are not
    iterable. *)
Definition iter (v : json) : result (list json) :=
  match v with
  | JArr l => Ok l
  | JObj d => Ok (JStr <$> (map_to_list d).*1)
  | JStr s => Ok ((fun c => JStr (String c EmptyString)) <$> list_ascii_of_string s)
  | _ => Raise TypeError
  end.

End Py.
Export Py(json, JNull, JBool, JNum, JStr, JArr, JObj, result, Ok, Raise).

#[global] Instance result_ret : MRet result := @Ok.
#[global] Instance result_bind : MBind result :=
  fun A B k r =>
    match r with
    | Ok a => k a
    | Raise e => Raise e
    end.

(* ===================================================================== *)
(** ** The data model: ORM rows                                           *)
(* ===================================================================== *)

(** A [DateTime] column; the embedding only stores and compares instants. *)
Definition datetime : Type := Z.

(** Row of [dw_leads]; the columns the embedded code reads or writes. *)
Module Lead.
Record t : Type := mk {
  id : Z;
  business_name : string;
  email : option string;
  status : option string;
  last_activity : option datetime;
  activity_count : option Z
}.
Definition set_status (v : option string) (l : t) : t :=
  mk (id l) (business_name l) (email l) v (last_activity l) (activity_count l).
Definition set_last_activity (v : option datetime) (l : t) : t :=
  mk (id l) (business_name l) (email l) (status l) v (activity_count l).
Definition set_activity_count (v : option Z) (l : t) : t :=
  mk (id l) (business_name l) (email l) (status l) (last_activity l) v.
End Lead.

(** Row of [dw_logs]. The attributes hold whatever the constructor call
    assigned, which for the logging endpoints is a decoded JSON value. *)
Module Log.
Record t : Type := mk {
  lead_id : option Z;
  activity_type : json;
  outcome : json;
  notes : json;
  timestamp : option datetime;
  call_duration : json;
  call_outcome : json;
  call_notes : json;
  email_subject : json
}.
End Log.

(** Row of [dw_generated_emails]. *)
Module GeneratedEmail.
Record t : Type := mk {
  id : Z;
  lead_id : option Z;
  recipient_email : option string;
  subject : option string;
  body : option string;
  status : option string;
  sent_at : option datetime;
  reply_status : option string;
  replied_at : option datetime;
  reply_snippet : option string;
  microsoft_message_id : option json
}.
End GeneratedEmail.

(** Row of [microsoft_tokens]. *)
Module MicrosoftToken.
Record t : Type := mk {
  access_token : json;
  refresh_token : json;
  expires_at : option datetime
}.
End MicrosoftToken.

(* ===================================================================== *)
(** ** The session, the outside world and the handler monad              *)
(* ===================================================================== *)

(** The tables. Rows with a primary key that the code looks up are keyed
    by it; [dw_logs] is only appended to. *)
Record DB : Type := mkDB {
  leads : gmap Z Lead.t;
  emails : gmap Z GeneratedEmail.t;
  logs : list Log.t;
  tokens : list MicrosoftToken.t
}.

(* ===================================================================== *)
(** ** The declarative classes and their mapper configuration            *)
(* ===================================================================== *)

Module Orm.

(** A [relationship(...)] of a declarative class: its attribute, the class
    that it names and the columns given as [foreign_keys], if any. *)
Record Relationship : Type := mkRelationship {
  attribute : string;
  target : string;
  foreign_keys : list string
}.

(** A declarative class on [Base]: its [__tablename__], its columns that
    carry a [ForeignKey] with the table that each names, and its
    relationships. *)
Record Mapped : Type := mkMapped {
  class_name : string;
  tablename : string;
  foreign_key_columns : list (string * string);
  relationships : list Relationship
}.

(** The classes of [api/app.py], in the order of their declaration. *)
Definition APP_CLASSES : list Mapped :=
  [ mkMapped "Lead" "dw_leads" [("campaign_id", "dw_campaigns")]
      [mkRelationship "logs" "Log" []];
    mkMapped "Log" "dw_logs" [("lead_id", "dw_leads")] [];
    mkMapped "Campaign" "dw_campaigns" [] [];
    mkMapped "PipelineStage" "dw_pipeline_stages" [] [];
    mkMapped "StageHistory" "dw_stage_history"
      [("lead_id", "dw_leads"); ("from_stage_id", "dw_pipeline_stages");
       ("to_stage_id", "dw_pipeline_stages")]
      [mkRelationship "lead" "Lead" [];
       mkRelationship "from_stage" "PipelineStage" ["from_stage_id"];
       mkRelationship "to_stage" "PipelineStage" ["to_stage_id"]];
    mkMapped "TeamMember" "dw_team_members" [] [];
    mkMapped "Reminder" "dw_reminders" [("lead_id", "dw_leads")]
      [mkRelationship "lead" "Lead" []];
    mkMapped "CalendarEvent" "dw_calendar_events" [("lead_id", "dw_leads")]
      [mkRelationship "lead" "Lead" []];
    mkMapped "EmailTemplate" "dw_email_templates" [] [];
    mkMapped "EmailSequence" "dw_email_sequences" []
      [mkRelationship "steps" "EmailSequenceStep" []];
    mkMapped "EmailSequenceStep" "dw_email_sequence_steps"
      [("sequence_id", "dw_email_sequences"); ("template_id", "dw_email_templates")]
      [mkRelationship "template" "EmailTemplate" []];
    mkMapped "GeneratedEmail" "dw_generated_emails"
      [("lead_id", "dw_leads"); ("template_id", "dw_email_templates")]
      [mkRelationship "lead" "Lead" []; mkRelationship "template" "EmailTemplate" []];
    mkMapped "Proposal" "dw_proposals" [("lead_id", "dw_leads")]
      [mkRelationship "lead" "Lead" []];
    mkMapped "CallScript" "dw_call_scripts" [] [];
    mkMapped "SearchHistory" "dw_search_history" [] [];
    mkMapped "NetworkClient" "dw_network_clients" [] [];
    mkMapped "NetworkEntity" "dw_network_entities" [] [];
    mkMapped "NetworkEdge" "dw_network_edges"
      [("from_entity_id", "dw_network_entities"); ("to_entity_id", "dw_network_entities")]
      [mkRelationship "from_entity" "NetworkEntity" ["from_entity_id"];
       mkRelationship "to_entity" "NetworkEntity" ["to_entity_id"]];
    mkMapped "AutomationRule" "dw_automation_rules" [] [];
    mkMapped "Notification" "dw_notifications"
      [("related_lead_id", "dw_leads"); ("related_rule_id", "dw_automation_rules")]
      [mkRelationship "lead" "Lead" []; mkRelationship "rule" "AutomationRule" []];
    mkMapped "SLATimer" "dw_sla_timers" [("lead_id", "dw_leads")]
      [mkRelationship "lead" "Lead" []];
    mkMapped "Document" "dw_documents" [("lead_id", "dw_leads")]
      [mkRelationship "lead" "Lead" []];
    mkMapped "AuditLog" "dw_audit_logs" [] [] ].

(** The classes that [create_microsoft_models(Base)] of
    [api/microsoft_integration.py] adds to the same [Base]. *)
Definition MICROSOFT_CLASSES : list Mapped :=
  [ mkMapped "MicrosoftToken" "microsoft_tokens" [("user_id", "team_members")] [];
    mkMapped "TrackedEmail" "tracked_emails"
      [("user_id", "team_members"); ("lead_id", "leads")]
      [mkRelationship "lead" "Lead" []];
    mkMapped "EmailSyncStatus" "email_sync_status" [("user_id", "team_members")] [] ].

(** The classes mapped on [Base] once [api/app.py] is imported. *)
Definition BASE : list Mapped := APP_CLASSES ++ MICROSOFT_CLASSES.

(** The columns of a class whose [ForeignKey] names the table. A key that
    names another table, also one that no class declares, does not link. *)
Definition linking (c : Mapped) (table : string) : list string :=
  (filter (fun column => column.2 = table) (foreign_key_columns c)).*1.

(** Whether the join of a relationship can be determined: among the
    foreign keys that link the table of the class and the table of the
    target, in either direction, or among those given as [foreign_keys],
    there is exactly one. *)
Definition joins (classes : list Mapped) (c : Mapped) (r : Relationship) : bool :=
  match head (filter (fun t => class_name t = target r) classes) with
  | None => false
  | Some t =>
      match foreign_keys r with
      | [] =>
          Nat.eqb (length (linking c (tablename t)) + length (linking t (tablename c))) 1
      | given =>
          Nat.eqb (length (filter (fun column => column ∈ given) (linking c (tablename t)))) 1
      end
  end.

(** The relationships whose join cannot be determined, each with its
    class. *)
Definition unjoined (classes : list Mapped) : list (string * string) :=
  c ← classes;
  (fun r => (class_name c, attribute r)) <$>
    filter (fun r => joins classes c r = false) (relationships c).

(** Mapper configuration, which the first use of any mapped class of the
    registry triggers for all of them: it fails for all when it fails for
    one. *)
Definition configure (classes : list Mapped) : result unit :=
  match unjoined classes with
  | [] => Ok tt
  | _ => Raise Py.InvalidRequestError
  end.

End Orm.

(** A call made through [_http_session]. *)
Record HttpRequest : Type := mkRequest {
  method : string;
  url : string;
  payload : json
}.

(** What the call returned: [json_body] is [None] when the body does not
    decode, in which case [response.json()] raises. *)
Record HttpResponse : Type := mkResponse {
  status_code : Z;
  json_body : option json;
  text : string
}.

(** The outside world of one request: the answer the network gives to each
    call (or the exception the call raises), the wall clock, read once per
    request, and the pieces of the platform that the code relies on. *)
Record World : Type := mkWorld {
  net : HttpRequest -> result HttpResponse;
  utcnow : datetime;
  (** [datetime.fromisoformat], a library parser: an instant, or the
      [ValueError] it raises. *)
  fromisoformat : string -> result datetime;
  (** [os.environ] *)
  environ : gmap string string;
  (** Whether the import of the Microsoft models succeeded, that is whether
      the module-level [MicrosoftToken] is a class and not [None]. *)
  microsoft_models : bool;
  (** Whether the database lets [column IN (..., NULL)] select a row whose
      column is NULL. SQL's three-valued logic does not; an engine or ORM
      that turns the NULL element into [IS NULL] does. The source does not
      decide it. *)
  in_selects_null : bool;
  (** The classes mapped on [Base] when the request is served: [Orm.BASE]
      after the import of [api/app.py] as it is. *)
  mapped : list Orm.Mapped;
  (** Whether the driver writes the rows that the session holds pending,
      when they hold no value that it cannot bind. The source does not
      decide it. *)
  flushes : DB -> bool
}.

(** State of one request: the session's pending rows ([working]), what
    the database holds ([committed]), the lines printed so far and the
    HTTP calls made so far. *)
Record State : Type := mkState {
  working : DB;
  committed : DB;
  stdout : list string;
  requests : list HttpRequest
}.

Definition M (A : Type) : Type := State -> result A * State.

Definition ret {A} (a : A) : M A := fun st => (Ok a, st).

Definition bind {A B} (m : M A) (k : A -> M B) : M B :=
  fun st =>
    match m st with
    | (Ok a, st') => k a st'
    | (Raise e, st') => (Raise e, st')
    end.

#[global] Instance M_ret : MRet M := @ret.
#[global] Instance M_bind : MBind M := fun A B k m => bind m k.

(** Run a computation that cannot touch the state. *)
Definition lift {A} (r : result A) : M A := fun st => (r, st).

(** [print(line)] *)
Definition print (line : string) : M unit :=
  fun st =>
    (Ok tt, mkState (working st) (committed st) (stdout st ++ [line]) (requests st)).

(** Read and replace the session's pending rows. *)
Definition get_db : M DB := fun st => (Ok (working st), st).

Definition put_db (d : DB) : M unit :=
  fun st => (Ok tt, mkState d (committed st) (stdout st) (requests st)).

(** Whether the driver can bind a decoded JSON value to a column: a list
    and a dict it cannot. *)
Definition binds (v : json) : bool :=
  match v with
  | JArr _ | JObj _ => false
  | _ => true
  end.

(** Whether the rows hold only values that the driver can bind. *)
Definition bindable (d : DB) : bool :=
  (forallb (fun l => binds (Log.activity_type l) && binds (Log.outcome l) &&
                     binds (Log.notes l) && binds (Log.call_duration l) &&
                     binds (Log.call_outcome l) && binds (Log.call_notes l) &&
                     binds (Log.email_subject l)) (logs d) &&
   forallb (fun t => binds (MicrosoftToken.access_token t) &&
                     binds (MicrosoftToken.refresh_token t)) (tokens d) &&
   forallb (fun e => match GeneratedEmail.microsoft_message_id e with
                     | Some v => binds v
                     | None => true
                     end) (map_to_list (emails d)).*2)%bool.

(** Whether the flush of the pending rows goes through. *)
Definition flushed (w : World) (d : DB) : bool := (bindable d && flushes w d)%bool.

(** The flush of the pending rows, which the session does before a query
    and before a commit. *)
Definition flush (w : World) : M unit :=
  fun st =>
    if flushed w (working st) then (Ok tt, st) else (Raise Py.StatementError, st).

(** [session.query(...)], up to the statement: the mappers are configured
    and the pending rows are flushed. *)
Definition query (w : World) : M unit :=
  fun st =>
    match Orm.configure (mapped w) with
    | Ok _ => flush w st
    | Raise e => (Raise e, st)
    end.

(** [session.commit()] *)
Definition commit (w : World) : M unit :=
  fun st =>
    if flushed w (working st)
    then (Ok tt, mkState (working st) (working st) (stdout st) (requests st))
    else (Raise Py.StatementError, st).

(** The rows of a table in the order of their primary key, in which the
    queries of the code, which have no [ORDER BY], are taken to return
    them. *)
Definition key_le {A} (a b : Z * A) : Prop := a.1 <= b.1.

#[global] Instance key_le_dec {A} (a b : Z * A) : Decision (key_le a b) :=
  decide (a.1 <= b.1).

Definition in_id_order {A} (table : gmap Z A) : list A :=
  (merge_sort key_le (map_to_list table)).*2.

(** [session.rollback()], and what [session.close()] does to rows that
    were never committed. *)
Definition rollback : M unit :=
  fun st => (Ok tt, mkState (committed st) (committed st) (stdout st) (requests st)).

(** [try: body except Exception as e: handler(e)] *)
Definition try_except {A} (body : M A) (handler : Py.exn -> M A) : M A :=
  fun st =>
    match body st with
    | (Ok a, st') => (Ok a, st')
    | (Raise e, st') => handler e st'
    end.

(** [try: body finally: session.close()] *)
Definition finally_close {A} (body : M A) : M A :=
  fun st =>
    match body st with
    | (r, st') => (r, mkState (committed st') (committed st') (stdout st') (requests st'))
    end.

(** A call through [_http_session]: it is recorded and answered by the
    world. *)
Definition http (w : World) (rq : HttpRequest) : M HttpResponse :=
  fun st =>
    (net w rq, mkState (working st) (committed st) (stdout st) (requests st ++ [rq])).

(** [response.json()] *)
Definition response_json (r : HttpResponse) : result json :=
  match json_body r with
  | Some v => Ok v
  | None => Raise Py.ValueError
  end.

(** Row updates on the pending tables: the in-place mutation of an ORM
    object reaches the row with its primary key. *)
Definition set_lead (l : Lead.t) : M unit :=
  d ← get_db;
  put_db (mkDB (<[Lead.id l := l]> (leads d)) (emails d) (logs d) (tokens d)).

Definition set_token (t : MicrosoftToken.t) : M unit :=
  d ← get_db;
  put_db (mkDB (leads d) (emails d) (logs d) (t :: tail (tokens d))).

Definition set_email (e : GeneratedEmail.t) : M unit :=
  d ← get_db;
  put_db (mkDB (leads d) (<[GeneratedEmail.id e := e]> (emails d)) (logs d) (tokens d)).

(** [session.add(log)] *)
Definition add_log (l : Log.t) : M unit :=
  d ← get_db;
  put_db (mkDB (leads d) (emails d) (logs d ++ [l]) (tokens d)).

(** [get_session()]: a fresh session on the database, nothing printed and
    no call made yet. *)
Definition get_session (db : DB) : State := mkState db db [] [].

(** What a handler returns: the payload handed to [jsonify] and the HTTP
    status. *)
Inductive Body : Type :=
| ErrorBody (msg : string)
| ExceptionBody (context : string) (e : Py.exn)
| LogBody (l : Log.t)
| EmailBody (e : GeneratedEmail.t)
| CheckedBody (message : string) (updated : Z) (checked : option Z).

Definition Response : Type := Body * Z.


(* ===================================================================== *)
(** ** api/microsoft_integration.py: the email categorizer               *)
(* ===================================================================== *)

Module MicrosoftIntegration.

(** Email categories based on subject line keywords. A dict literal is
    iterated in the order it is written, so the table is a list. *)
Definition OUTREACH_CATEGORIES : list (string * list string) :=
  [ ("introduction",
      [ "introduction"; "intro"; "reaching out"; "first contact";
        "nice to meet"; "introducing myself"; "let me introduce" ]);
    ("follow_up",
      [ "follow up"; "following up"; "checking in"; "just wanted to";
        "touching base"; "circling back"; "quick follow" ]);
    ("meeting_date",
      [ "meeting date"; "schedule"; "calendar"; "book a time";
        "availability"; "let's meet"; "meeting request"; "call scheduled" ]);
    ("contract_deal",
      [ "contract deal"; "proposal"; "agreement"; "pricing"; "quote";
        "contract"; "terms"; "offer"; "deal terms" ]);
    ("deal_closed",
      [ "deal closed"; "welcome aboard"; "signed"; "congratulations";
        "looking forward"; "thank you for choosing"; "welcome to" ]) ].

(** [for keyword in keywords: if keyword in subject_lower: return ...]:
    whether the inner loop reaches its [return]. *)
Fixpoint keyword_loop (keywords : list string) (subject_lower : string) : bool :=
  match keywords with
  | [] => false
  | keyword :: rest =>
      if Py.str_in keyword subject_lower then true
      else keyword_loop rest subject_lower
  end.

(** [for category, keywords in OUTREACH_CATEGORIES.items(): ...] followed
    by the final [return None]. *)
Fixpoint category_loop (items : list (string * list string))
    (subject_lower : string) : option string :=
  match items with
  | [] => None
  | (category, keywords) :: rest =>
      if keyword_loop keywords subject_lower then Some category
      else category_loop rest subject_lower
  end.

(** [categorize_email(subject)]. The caller passes [msg.get('subject', '')],
    a decoded JSON value. *)
Definition categorize_email (subject : json) : result (option string) :=
  if negb (Py.truthy subject) then Ok None
  else
    match Py.lower_of subject with
    | Raise e => Raise e
    | Ok subject_lower => Ok (category_loop OUTREACH_CATEGORIES subject_lower)
    end.

End MicrosoftIntegration.
(* ===================================================================== *)
(** ** api/app.py: automated pipeline advancement                        *)
(* ===================================================================== *)

Module App.

(** Pipeline order - higher index = further along. *)
Definition PIPELINE_ORDER : list string :=
  [ "Not Contacted";
    "Attempted";
    "Connected";
    "Follow-up Needed";
    "Qualified Lead";
    "Proposal Sent";
    "Converted" ].

(** Terminal statuses that should not be auto-advanced. *)
Definition TERMINAL_STATUSES : gset string :=
  {[ "Not Interested"; "Converted" ]}.

(** [PIPELINE_ORDER.index(s) if s in PIPELINE_ORDER else -1] *)
Definition index_or_minus_one (s : string) : result Z :=
  if Py.in_list s PIPELINE_ORDER then Py.index PIPELINE_ORDER s else Ok (-1).

(** The line printed on an advance. *)
Definition advance_line (lead : Lead.t) (old_status : option string)
    (new_status reason : string) : string :=
  "Pipeline auto-advance: Lead #" +:+ Py.str_int (Lead.id lead) +:+ " '" +:+
  Lead.business_name lead +:+ "' " +:+ Py.str_opt old_status +:+ " -> " +:+
  new_status +:+ " (" +:+ reason +:+ ")".

(** [advance_lead_status(session, lead, new_status, reason)]. The session
    argument, which the body never uses, is the monad's state. [lead] is
    [None] for Python's [None]; the value returned is the state of the
    [lead] object when the call returns (the Python function mutates it in
    place and returns nothing). *)
Definition advance_lead_status (lead : option Lead.t)
    (new_status reason : string) : M (option Lead.t) :=
  match lead with
  | None => ret None
  | Some l =>
      let current := Py.or_str (Lead.status l) "Not Contacted" in
      if bool_decide (current ∈ TERMINAL_STATUSES) then ret (Some l)
      else
        cur_idx ← lift (index_or_minus_one current);
        new_idx ← lift (index_or_minus_one new_status);
        if new_idx >? cur_idx then
          let old_status := Lead.status l in
          let l' := Lead.set_status (Some new_status) l in
          print (advance_line l' old_status new_status reason);;
          ret (Some l')
        else ret (Some l)
  end.

(* ------------------------------------------------------------------- *)
(** *** Lead logs API                                                   *)
(* ------------------------------------------------------------------- *)

(** The row of [dw_leads] with the primary key. *)
Definition lead_row (lead_id : Z) : M (option Lead.t) :=
  d ← get_db; ret (leads d !! lead_id).

(** [session.query(Lead).filter_by(id=lead_id).first()] *)
Definition query_lead (w : World) (lead_id : Z) : M (option Lead.t) :=
  query w;;
  lead_row lead_id.

(** [session.query(Lead).filter_by(email=address).first()] *)
Definition query_lead_by_email (w : World) (address : string) : M (option Lead.t) :=
  query w;;
  d ← get_db;
  ret (head (filter (fun l => Lead.email l = Some address) (in_id_order (leads d)))).

(** [lead.activity_count += 1]: adding to [None] raises. *)
Definition increment (count : option Z) : result Z :=
  match count with
  | Some n => Ok (n + 1)
  | None => Raise Py.TypeError
  end.

(** The state of an ORM object after a callee may have mutated it reaches
    its row. *)
Definition store_lead (lead : option Lead.t) : M unit :=
  match lead with
  | Some l => set_lead l
  | None => ret tt
  end.

(** [outcome in ("Connected", "Interested")] *)
Definition connected_or_interested (outcome : json) : bool :=
  (Py.eq_str outcome "Connected" || Py.eq_str outcome "Interested")%bool.

Section Handlers.

(** The two logging handlers call [advance_lead_status]; they are written
    over the callee so that what they pass to it can be stated. *)
Variable advance : option Lead.t -> string -> string -> M (option Lead.t).

(** [POST /api/leads/<lead_id>/quick-log], with [data = request.json]. An
    exception that leaves the handler is the framework's 500. *)
Definition quick_log_activity_with (w : World) (lead_id : Z) (data : json) : M Response :=
  finally_close (
    lead ← query_lead w lead_id;
    match lead with
    | None => ret (ErrorBody "Lead not found", 404)
    | Some lead =>
        log_activity_type ← lift (Py.get data "activity_type" (JStr "Call"));
        log_outcome ← lift (Py.get data "outcome" (JStr "Attempted"));
        log_notes ← lift (Py.get data "notes" (JStr ""));
        let log :=
          Log.mk (Some lead_id) log_activity_type log_outcome log_notes
            (Some (utcnow w)) JNull JNull JNull JNull in
        add_log log;;
        (* Update lead *)
        count ← lift (increment (Lead.activity_count lead));
        let lead := Lead.set_activity_count (Some count) lead in
        let lead := Lead.set_last_activity (Some (utcnow w)) lead in
        set_lead lead;;
        (* Auto-advance pipeline based on activity type *)
        activity_type ← lift (Py.get data "activity_type" (JStr "Call"));
        outcome ← lift (Py.get data "outcome" (JStr ""));
        (if Py.eq_str activity_type "Call" then
           if connected_or_interested outcome then
             lead' ← advance (Some lead) "Connected" "call connected";
             store_lead lead'
           else
             lead' ← advance (Some lead) "Attempted" "call attempted";
             store_lead lead'
         else if Py.eq_str activity_type "Email" then
           lead' ← advance (Some lead) "Attempted" "email logged";
           store_lead lead'
         else if Py.eq_str activity_type "Meeting" then
           lead' ← advance (Some lead) "Connected" "meeting logged";
           store_lead lead'
         else if Py.eq_str activity_type "Note" then
           (* Notes don't advance pipeline *)
           ret tt
         else ret tt);;
        commit w;;
        ret (LogBody log, 200)
    end).

(** [POST /api/leads/<lead_id>/logs], with [data = request.json]. *)
Definition create_log_with (w : World) (lead_id : Z) (data : json) : M Response :=
  finally_close (
    lead ← query_lead w lead_id;
    match lead with
    | None => ret (ErrorBody "Lead not found", 404)
    | Some lead =>
        log_activity_type ← lift (Py.get data "activity_type" JNull);
        log_outcome ← lift (Py.get data "outcome" JNull);
        log_notes ← lift (Py.get data "notes" JNull);
        log_call_duration ← lift (Py.get data "call_duration" JNull);
        log_call_outcome ← lift (Py.get data "call_outcome" JNull);
        log_call_notes ← lift (Py.get data "call_notes" JNull);
        log_email_subject ← lift (Py.get data "email_subject" JNull);
        (* [timestamp] is not passed: the column default, [datetime.utcnow],
           fills it in *)
        let log :=
          Log.mk (Some lead_id) log_activity_type log_outcome log_notes (Some (utcnow w))
            log_call_duration log_call_outcome log_call_notes log_email_subject in
        add_log log;;
        (* Update lead *)
        count ← lift (increment (Lead.activity_count lead));
        let lead := Lead.set_activity_count (Some count) lead in
        let lead := Lead.set_last_activity (Some (utcnow w)) lead in
        set_lead lead;;
        (* Auto-advance pipeline based on activity type *)
        activity_type ← lift (Py.get data "activity_type" (JStr ""));
        outcome ← lift (Py.get data "outcome" (JStr ""));
        (if Py.eq_str activity_type "Call" then
           if connected_or_interested outcome then
             lead' ← advance (Some lead) "Connected" "call connected";
             store_lead lead'
           else
             lead' ← advance (Some lead) "Attempted" "call attempted";
             store_lead lead'
         else if Py.eq_str activity_type "Email" then
           lead' ← advance (Some lead) "Attempted" "email logged";
           store_lead lead'
         else if Py.eq_str activity_type "Meeting" then
           lead' ← advance (Some lead) "Connected" "meeting logged";
           store_lead lead'
         else ret tt);;
        commit w;;
        ret (LogBody log, 200)
    end).

End Handlers.

Definition quick_log_activity : World -> Z -> json -> M Response :=
  quick_log_activity_with advance_lead_status.

Definition create_log : World -> Z -> json -> M Response :=
  create_log_with advance_lead_status.

(* ------------------------------------------------------------------- *)
(** *** Microsoft token, shared by the email endpoints                  *)
(* ------------------------------------------------------------------- *)

(** [response.ok] *)
Definition response_ok (r : HttpResponse) : bool := status_code r <? 400.

(** The body of the [try] that refreshes an expired token: [inl] is an
    early [return] of the handler, [inr] the refreshed token. *)
Definition refresh_token_body (w : World) (relogin : string)
    (token : MicrosoftToken.t) : M (Response + MicrosoftToken.t) :=
  let tenant_id :=
    Py.or_str (environ w !! "MS_TENANT_ID") (default "common" (environ w !! "MS_TENANT")) in
  let token_url :=
    "https://login.microsoftonline.com/" +:+ tenant_id +:+ "/oauth2/v2.0/token" in
  let refresh_data :=
    JObj {[ "client_id" := Py.json_of_opt (environ w !! "MS_CLIENT_ID");
            "client_secret" := Py.json_of_opt (environ w !! "MS_CLIENT_SECRET");
            "refresh_token" := MicrosoftToken.refresh_token token;
            "grant_type" := JStr "refresh_token";
            "scope" := JStr "openid profile email User.Read Mail.Read Mail.Send offline_access" ]} in
  refresh_response ← http w (mkRequest "POST" token_url refresh_data);
  if response_ok refresh_response then
    token_data ← lift (response_json refresh_response);
    access ← lift (Py.get token_data "access_token" JNull);
    let token :=
      MicrosoftToken.mk access (MicrosoftToken.refresh_token token)
        (MicrosoftToken.expires_at token) in
    set_token token;;
    refresh ← lift (Py.get token_data "refresh_token" (MicrosoftToken.refresh_token token));
    let token :=
      MicrosoftToken.mk (MicrosoftToken.access_token token) refresh
        (MicrosoftToken.expires_at token) in
    set_token token;;
    expires_in ← lift (Py.get token_data "expires_in" (JNum 3600));
    seconds ← lift (Py.timedelta_seconds expires_in);
    let token :=
      MicrosoftToken.mk (MicrosoftToken.access_token token)
        (MicrosoftToken.refresh_token token) (Some (utcnow w + seconds)) in
    set_token token;;
    commit w;;
    ret (inr token)
  else
    ret (inl (ErrorBody relogin, 401)).

(** The opening of [send_email] and [check_email_replies]: find the token
    and refresh it when it has expired. The two handlers differ in the two
    messages only. *)
Definition acquire_token (w : World) (not_connected relogin : string)
    : M (Response + MicrosoftToken.t) :=
  if negb (microsoft_models w) then
    ret (inl (ErrorBody "Microsoft integration not configured", 500))
  else
    query w;;
    d ← get_db;
    match head (tokens d) with
    | None => ret (inl (ErrorBody not_connected, 401))
    | Some token =>
        if negb (Py.truthy (MicrosoftToken.access_token token)) then
          ret (inl (ErrorBody not_connected, 401))
        else
          match MicrosoftToken.expires_at token with
          | Some expires_at =>
              if ((expires_at <? utcnow w) &&
                  Py.truthy (MicrosoftToken.refresh_token token))%bool then
                try_except (refresh_token_body w relogin token)
                  (fun e => ret (inl (ExceptionBody "Token refresh failed: " e, 401)))
              else ret (inr token)
          | None => ret (inr token)
          end
    end.

(* ------------------------------------------------------------------- *)
(** *** Sending: POST /api/emails/<email_id>/send                       *)
(* ------------------------------------------------------------------- *)

(** [session.query(GeneratedEmail).filter_by(id=email_id).first()] *)
Definition query_email (w : World) (email_id : Z) : M (option GeneratedEmail.t) :=
  query w;;
  d ← get_db; ret (emails d !! email_id).

(** [email.lead]: the load of the lead that the foreign key points to, if
    any. *)
Definition email_lead (w : World) (email : GeneratedEmail.t) : M (option Lead.t) :=
  query w;;
  d ← get_db;
  ret (match GeneratedEmail.lead_id email with
       | Some i => leads d !! i
       | None => None
       end).

(** [email.status not in ("approved", "pending_review")] *)
Definition not_sendable (status : option string) : bool :=
  match status with
  | Some s => negb (String.eqb s "approved" || String.eqb s "pending_review")
  | None => true
  end.

Definition quote : string := String (ascii_of_nat 34) EmptyString.

Definition newline : ascii := ascii_of_nat 10.

(** The HTML document wrapped around the body of the email. *)
Definition full_html (body : option string) : string :=
  let html_body :=
    if Py.truthy_str body then Py.replace_char newline "<br>" (default "" body) else "" in
  "<!DOCTYPE html>" +:+ String newline
  ("<html><head><meta charset=" +:+ quote +:+ "utf-8" +:+ quote +:+ "></head>" +:+
   String newline
   ("<body style=" +:+ quote +:+
    "font-family: Arial, sans-serif; font-size: 14px; line-height: 1.6; color: #333;" +:+
    quote +:+ ">" +:+ String newline
    ("<div style=" +:+ quote +:+ "max-width: 600px; margin: 0 auto; padding: 20px;" +:+
     quote +:+ ">" +:+ html_body +:+ "</div>" +:+ String newline "</body></html>"))).

(** The call that sends the message. *)
Definition send_mail_request (email : GeneratedEmail.t) (to_email : string) : HttpRequest :=
  mkRequest "POST" "https://graph.microsoft.com/v1.0/me/sendMail"
    (JObj {[ "message" :=
               JObj {[ "subject" := Py.json_of_opt (GeneratedEmail.subject email);
                       "body" := JObj {[ "contentType" := JStr "HTML";
                                         "content" := JStr (full_html (GeneratedEmail.body email)) ]};
                       "toRecipients" :=
                         JArr [JObj {[ "emailAddress" := JObj {[ "address" := JStr to_email ]} ]}];
                       "importance" := JStr "normal" ]};
             "saveToSentItems" := JBool true ]}).

(** The call that looks the sent message up; the subject cannot be quoted
    when the email has none. *)
Definition sent_items_request (email : GeneratedEmail.t) : result HttpRequest :=
  match GeneratedEmail.subject email with
  | None => Raise Py.AttributeError
  | Some subject =>
      Ok (mkRequest "GET" "https://graph.microsoft.com/v1.0/me/mailFolders/SentItems/messages"
            (JObj {[ "$top" := JNum 1;
                     "$orderby" := JStr "sentDateTime desc";
                     "$select" := JStr "id,subject,internetMessageId";
                     "$filter" := JStr ("subject eq '" +:+
                                        Py.replace_char "'" "''" subject +:+ "'") ]}))
  end.

Definition with_status_sent (w : World) (email : GeneratedEmail.t) : GeneratedEmail.t :=
  GeneratedEmail.mk (GeneratedEmail.id email) (GeneratedEmail.lead_id email)
    (GeneratedEmail.recipient_email email) (GeneratedEmail.subject email)
    (GeneratedEmail.body email) (Some "sent") (Some (utcnow w)) (Some "no_reply")
    (GeneratedEmail.replied_at email) (GeneratedEmail.reply_snippet email)
    (GeneratedEmail.microsoft_message_id email).

Definition with_message_id (v : json) (email : GeneratedEmail.t) : GeneratedEmail.t :=
  GeneratedEmail.mk (GeneratedEmail.id email) (GeneratedEmail.lead_id email)
    (GeneratedEmail.recipient_email email) (GeneratedEmail.subject email)
    (GeneratedEmail.body email) (GeneratedEmail.status email) (GeneratedEmail.sent_at email)
    (GeneratedEmail.reply_status email) (GeneratedEmail.replied_at email)
    (GeneratedEmail.reply_snippet email) (Some v).

Definition with_lead_id (i : Z) (email : GeneratedEmail.t) : GeneratedEmail.t :=
  GeneratedEmail.mk (GeneratedEmail.id email) (Some i)
    (GeneratedEmail.recipient_email email) (GeneratedEmail.subject email)
    (GeneratedEmail.body email) (GeneratedEmail.status email) (GeneratedEmail.sent_at email)
    (GeneratedEmail.reply_status email) (GeneratedEmail.replied_at email)
    (GeneratedEmail.reply_snippet email) (GeneratedEmail.microsoft_message_id email).

(** The [try] block that captures the id of the sent message. *)
Definition capture_message_id (w : World) (email : GeneratedEmail.t) : M GeneratedEmail.t :=
  rq ← lift (sent_items_request email);
  sent_resp ← http w rq;
  if status_code sent_resp =? 200 then
    body ← lift (response_json sent_resp);
    msgs ← lift (Py.get body "value" (JArr []));
    if Py.truthy msgs then
      first ← lift (Py.first_item msgs);
      internet_id ← lift (Py.get first "internetMessageId" JNull);
      message_id ←
        (if Py.truthy internet_id then ret internet_id
         else lift (Py.get first "id" JNull));
      let email := with_message_id message_id email in
      set_email email;;
      print ("Captured message ID: " +:+ Py.str_json message_id);;
      ret email
    else ret email
  else ret email.

(** What follows a send that the provider accepted. *)
Definition after_send (w : World) (email : GeneratedEmail.t) (to_email : string)
    : M Response :=
  let email := with_status_sent w email in
  set_email email;;
  (* Try to get the sent message ID for reply tracking *)
  email ←
    try_except (capture_message_id w email)
      (fun msg_err =>
         print ("Could not capture message ID (non-fatal): " +:+ Py.str_exn msg_err);;
         ret email);
  (* If lead_id is missing, try to find the lead by recipient email *)
  email ←
    (if (negb (Py.truthy_int (GeneratedEmail.lead_id email)) &&
         Py.truthy_str (Some to_email))%bool then
       matched_lead ← query_lead_by_email w to_email;
       match matched_lead with
       | Some matched_lead =>
           let email := with_lead_id (Lead.id matched_lead) email in
           set_email email;;
           print ("Auto-linked email to lead #" +:+ Py.str_int (Lead.id matched_lead) +:+
                  " '" +:+ Lead.business_name matched_lead +:+ "' by recipient email");;
           ret email
       | None => ret email
       end
     else ret email);
  (if Py.truthy_int (GeneratedEmail.lead_id email) then
     lead ← email_lead w email;
     match lead with
     | Some lead =>
         add_log (Log.mk (GeneratedEmail.lead_id email) (JStr "Email") (JStr "Sent")
                    (JStr ("Subject: " +:+ Py.str_opt (GeneratedEmail.subject email) +:+
                           " | To: " +:+ to_email))
                    (Some (utcnow w)) JNull JNull JNull JNull);;
         let lead := Lead.set_last_activity (Some (utcnow w)) lead in
         let lead :=
           Lead.set_activity_count
             (Some (default 0 (Lead.activity_count lead) + 1)) lead in
         set_lead lead;;
         (* Auto-advance pipeline: email sent -> Attempted *)
         lead' ← advance_lead_status (Some lead) "Attempted" "email sent";
         store_lead lead'
     | None => ret tt
     end
   else
     (* Even without a lead, log the email send for performance tracking *)
     add_log (Log.mk None (JStr "Email") (JStr "Sent")
                (JStr ("Subject: " +:+ Py.str_opt (GeneratedEmail.subject email) +:+
                       " | To: " +:+ to_email +:+ " | Direct Send"))
                (Some (utcnow w)) JNull JNull JNull JNull));;
  commit w;;
  ret (EmailBody email, 200).

(** The message of a refused send: the [message] of the [error] object of
    the answer, or the text of the answer. *)
Definition send_error_message (response : HttpResponse) : string :=
  let error_detail := text response in
  match
    (body ← response_json response;
     error ← Py.get body "error" (JObj ∅);
     Py.get error "message" (JStr error_detail))
  with
  | Ok error_msg => Py.str_json error_msg
  | Raise _ => error_detail
  end.

(** [send_email(email_id)] *)
Definition send_email (w : World) (email_id : Z) : M Response :=
  finally_close (
    try_except (
      email ← query_email w email_id;
      match email with
      | None => ret (ErrorBody "Email not found", 404)
      | Some email =>
          if not_sendable (GeneratedEmail.status email) then
            ret (ErrorBody ("Email cannot be sent - status is '" +:+
                            Py.str_opt (GeneratedEmail.status email) +:+ "'"), 400)
          else
            (* Get recipient email - check stored recipient_email first, then
               fall back to lead email *)
            lead ← (if Py.truthy_str (GeneratedEmail.recipient_email email)
                    then ret None else email_lead w email);
            let to_email :=
              if Py.truthy_str (GeneratedEmail.recipient_email email)
              then GeneratedEmail.recipient_email email
              else match lead with
                   | Some lead => Lead.email lead
                   | None => None
                   end in
            if negb (Py.truthy_str to_email) then
              ret (ErrorBody "No recipient email found for this email", 400)
            else
              let to_email := default "" to_email in
              token ← acquire_token w "Microsoft not connected. Please sign in first."
                        "Token expired. Please sign in with Microsoft again.";
              match token with
              | inl response => ret response
              | inr token =>
                  (* Send via Microsoft Graph *)
                  print ("Sending approved email to " +:+ to_email +:+ ": " +:+
                         Py.str_opt (GeneratedEmail.subject email));;
                  response ← http w (send_mail_request email to_email);
                  if status_code response =? 202 then after_send w email to_email
                  else
                    print ("Graph API send failed: " +:+ text response);;
                    ret (ErrorBody ("Failed to send: " +:+ send_error_message response), 500)
              end
      end)
      (fun e =>
         rollback;;
         print ("Send email exception: " +:+ Py.str_exn e);;
         ret (ExceptionBody "" e, 500))).

(* ------------------------------------------------------------------- *)
(** *** Reply tracking: POST /api/emails/check-replies                  *)
(* ------------------------------------------------------------------- *)

(** [GeneratedEmail.status == "sent"] and
    [GeneratedEmail.reply_status.in_(["no_reply", None])], as the database
    evaluates them on one row. A NULL status is never equal to ["sent"]. *)
Definition awaiting_reply (w : World) (e : GeneratedEmail.t) : bool :=
  (match GeneratedEmail.status e with
   | Some s => String.eqb s "sent"
   | None => false
   end &&
   match GeneratedEmail.reply_status e with
   | Some s => String.eqb s "no_reply"
   | None => in_selects_null w
   end)%bool.

(** [session.query(GeneratedEmail).filter(...).all()]: the rows in the
    order of the table, each exactly once. *)
Definition query_sent_emails (w : World) : M (list GeneratedEmail.t) :=
  query w;;
  d ← get_db;
  ret (filter (fun e => awaiting_reply w e = true) (in_id_order (emails d))).

(** The value of [is_reply] for one sent email and one inbox message, with
    the four assignments that precede it in the loop body. [and] evaluates
    its right operand only when the left one is true. *)
Definition is_reply (sent_email : GeneratedEmail.t) (msg : json) : result bool :=
  msg_subject ← Py.get msg "subject" (JStr "");
  sender ← Py.get msg "from" (JObj ∅);
  email_address ← Py.get sender "emailAddress" (JObj ∅);
  address ← Py.get email_address "address" (JStr "");
  msg_from ← Py.lower_of address;
  let recipient := Py.lower (Py.or_str (GeneratedEmail.recipient_email sent_email) "") in
  let original_subject := Py.lower (Py.or_str (GeneratedEmail.subject sent_email) "") in
  if negb (Py.truthy_str (Some recipient)) then Ok false
  else if negb (String.eqb msg_from recipient) then Ok false
  else
    subject_lower ← Py.lower_of msg_subject;
    if negb (Py.startswith subject_lower "re:") then Ok false
    else
      subject_lower ← Py.lower_of msg_subject;
      Ok (Py.str_in original_subject subject_lower).

(** The value assigned to [replied_at]. *)
Definition received_at (w : World) (msg : json) : result datetime :=
  received ← Py.get msg "receivedDateTime" JNull;
  if Py.truthy received then
    match received with
    | JStr s => fromisoformat w (Py.replace_char "Z" "+00:00" s)
    | _ => Raise Py.AttributeError
    end
  else Ok (utcnow w).

(** The value assigned to [reply_snippet]: [(msg.get("bodyPreview") or "")[:500]].
    A number, [True] or a dict cannot be sliced. A non-empty list can: the
    result is [None] for the list that it gives, which the text column
    refuses when the row is flushed. *)
Definition snippet_of (msg : json) : result (option string) :=
  preview ← Py.get msg "bodyPreview" JNull;
  if Py.truthy preview then
    match preview with
    | JStr s => Ok (Some (Py.slice_to 500 s))
    | JArr _ => Ok None
    | _ => Raise Py.TypeError
    end
  else Ok (Some (Py.slice_to 500 "")).

(** The body of [if is_reply:] up to the [break]: the updated sent email
    reaches its row, and the lead of the email, if any, is advanced. *)
Definition record_reply (w : World) (sent_email : GeneratedEmail.t) (msg : json) : M unit :=
  replied_at ← lift (received_at w msg);
  reply_snippet ← lift (snippet_of msg);
  msg_subject ← lift (Py.get msg "subject" (JStr ""));
  match reply_snippet with
  | None =>
      (* the row holds a list; the flush that the query of the lead starts
         with is refused *)
      print ("Reply found for email #" +:+ Py.str_int (GeneratedEmail.id sent_email) +:+
             ": " +:+ Py.text_of msg_subject);;
      query w;;
      lift (Raise Py.StatementError)
  | Some reply_snippet =>
  let sent_email :=
    GeneratedEmail.mk (GeneratedEmail.id sent_email) (GeneratedEmail.lead_id sent_email)
      (GeneratedEmail.recipient_email sent_email) (GeneratedEmail.subject sent_email)
      (GeneratedEmail.body sent_email) (GeneratedEmail.status sent_email)
      (GeneratedEmail.sent_at sent_email) (Some "replied") (Some replied_at)
      (Some reply_snippet) (GeneratedEmail.microsoft_message_id sent_email) in
  set_email sent_email;;
  print ("Reply found for email #" +:+ Py.str_int (GeneratedEmail.id sent_email) +:+ ": " +:+
         Py.text_of msg_subject);;
  (* If lead_id is missing, try to find lead by recipient email *)
  sent_email ←
    (if (negb (Py.truthy_int (GeneratedEmail.lead_id sent_email)) &&
         Py.truthy_str (GeneratedEmail.recipient_email sent_email))%bool then
       matched_lead ← query_lead_by_email w (default "" (GeneratedEmail.recipient_email sent_email));
       match matched_lead with
       | Some matched_lead =>
           let sent_email :=
             GeneratedEmail.mk (GeneratedEmail.id sent_email) (Some (Lead.id matched_lead))
               (GeneratedEmail.recipient_email sent_email) (GeneratedEmail.subject sent_email)
               (GeneratedEmail.body sent_email) (GeneratedEmail.status sent_email)
               (GeneratedEmail.sent_at sent_email) (GeneratedEmail.reply_status sent_email)
               (GeneratedEmail.replied_at sent_email) (GeneratedEmail.reply_snippet sent_email)
               (GeneratedEmail.microsoft_message_id sent_email) in
           set_email sent_email;;
           print ("Auto-linked replied email to lead #" +:+ Py.str_int (Lead.id matched_lead) +:+
                  " '" +:+ Lead.business_name matched_lead +:+ "'");;
           ret sent_email
       | None => ret sent_email
       end
     else ret sent_email);
  if Py.truthy_int (GeneratedEmail.lead_id sent_email) then
    reply_lead ← query_lead w (default 0 (GeneratedEmail.lead_id sent_email));
    reply_lead ← advance_lead_status reply_lead "Connected" "email reply received";
    store_lead reply_lead
  else ret tt
  end.

(** [for msg in inbox_messages: ...]: the scan for one sent email, which
    stops at the first reply. The result is [updated_count] when the loop
    is left. *)
Fixpoint inbox_loop (w : World) (sent_email : GeneratedEmail.t)
    (inbox_messages : list json) (updated_count : Z) : M Z :=
  match inbox_messages with
  | [] => ret updated_count
  | msg :: rest =>
      reply ← lift (is_reply sent_email msg);
      if (reply : bool) then
        record_reply w sent_email msg;;
        ret (updated_count + 1)
      else inbox_loop w sent_email rest updated_count
  end.

(** [for sent_email in sent_emails: ...] *)
Fixpoint sent_loop (w : World) (sent_emails : list GeneratedEmail.t)
    (inbox_messages : json) (updated_count : Z) : M Z :=
  match sent_emails with
  | [] => ret updated_count
  | sent_email :: rest =>
      messages ← lift (Py.iter inbox_messages);
      updated_count ← inbox_loop w sent_email messages updated_count;
      sent_loop w rest inbox_messages updated_count
  end.

Definition inbox_request : HttpRequest :=
  mkRequest "GET" "https://graph.microsoft.com/v1.0/me/mailFolders/Inbox/messages"
    (JObj {[ "$top" := JNum 100;
             "$orderby" := JStr "receivedDateTime desc";
             "$select" := JStr "id,subject,from,receivedDateTime,bodyPreview,conversationId" ]}).

(** The inner [try] block: fetch the inbox and match. [inl] is the early
    [return] on a failed fetch, [inr] the final [updated_count]. *)
Definition match_replies (w : World) (sent_emails : list GeneratedEmail.t)
    : M (Response + Z) :=
  inbox_resp ← http w inbox_request;
  if negb (status_code inbox_resp =? 200) then
    print ("Inbox fetch failed: " +:+ Py.str_int (status_code inbox_resp));;
    ret (inl (ErrorBody "Failed to fetch inbox", 500))
  else
    body ← lift (response_json inbox_resp);
    inbox_messages ← lift (Py.get body "value" (JArr []));
    updated_count ← sent_loop w sent_emails inbox_messages 0;
    commit w;;
    ret (inr updated_count).

(** [check_email_replies()] *)
Definition check_email_replies (w : World) : M Response :=
  finally_close (
    try_except (
      token ← acquire_token w "Microsoft not connected" "Token expired. Please sign in again.";
      match token with
      | inl response => ret response
      | inr token =>
          (* Get all sent emails that haven't been replied to yet *)
          sent_emails ← query_sent_emails w;
          match sent_emails with
          | [] => ret (CheckedBody "No emails to check" 0 None, 200)
          | _ =>
              outcome ←
                try_except (match_replies w sent_emails)
                  (fun inbox_err =>
                     print ("Inbox check error: " +:+ Py.str_exn inbox_err);;
                     ret (inl (ExceptionBody "Failed to check inbox: " inbox_err, 500)));
              match outcome with
              | inl response => ret response
              | inr updated_count =>
                  let checked := Z.of_nat (length sent_emails) in
                  ret (CheckedBody
                         ("Checked " +:+ Py.str_int checked +:+ " emails, found " +:+
                          Py.str_int updated_count +:+ " replies")
                         updated_count (Some checked), 200)
              end
          end
      end)
      (fun e =>
         rollback;;
         print ("Check replies error: " +:+ Py.str_exn e);;
         ret (ExceptionBody "" e, 500))).

(* ------------------------------------------------------------------- *)
(** *** Activities API: POST /api/activities                            *)
(* ------------------------------------------------------------------- *)

(** What the database driver makes of a decoded JSON value that is bound
    to the integer column [id] and is no integer: the id that it compares
    with ([None] when the value selects no row), or the message of the
    error that the statement raises. The source does not decide it. *)
Record Engine : Type := mkEngine {
  bind_id : json -> string + option Z
}.

(** The id that [filter_by(id=v)] compares with. *)
Definition bound_id (g : Engine) (v : json) : string + option Z :=
  match v with
  | JNum n => inr (Some n)
  | _ => bind_id g v
  end.

(** The payload of the answer: an error object, or the dict of the new log
    with the name, the contact and the representative of the lead. *)
Inductive ActivityBody : Type :=
| ActivityError (msg : string)
| ActivityCreated (log : Log.t) (lead : Lead.t).

Definition ActivityResponse : Type := ActivityBody * Z.

(** The [except Exception as e] clause, for the text of [str(e)]. *)
Definition activity_failed (message : string) : M ActivityResponse :=
  rollback;;
  ret (ActivityError message, 500).

(** [create_activity()], with [data = request.json]. *)
Definition create_activity (w : World) (g : Engine) (data : json) : M ActivityResponse :=
  finally_close (
    try_except (
      lead_id ← lift (Py.get data "lead_id" JNull);
      if negb (Py.truthy lead_id) then ret (ActivityError "lead_id is required", 400)
      else
        query w;;
        match bound_id g lead_id with
        | inl message => activity_failed message
        | inr None => ret (ActivityError "Lead not found", 404)
        | inr (Some id) =>
            lead ← lead_row id;
            match lead with
            | None => ret (ActivityError "Lead not found", 404)
            | Some lead =>
                activity_type ← lift (Py.get data "activity_type" (JStr "Note"));
                outcome ← lift (Py.get data "outcome" (JStr ""));
                notes ← lift (Py.get data "notes" (JStr ""));
                call_duration ← lift (Py.get data "call_duration" JNull);
                email_subject ← lift (Py.get data "email_subject" JNull);
                let log :=
                  Log.mk (Some id) activity_type outcome notes (Some (utcnow w))
                    call_duration JNull JNull email_subject in
                add_log log;;
                (* Update lead activity tracking *)
                let lead :=
                  Lead.set_activity_count
                    (Some (default 0 (Lead.activity_count lead) + 1)) lead in
                let lead := Lead.set_last_activity (Some (utcnow w)) lead in
                set_lead lead;;
                commit w;;
                ret (ActivityCreated log lead, 201)
            end
        end)
      (fun e => activity_failed (Py.str_exn e))).

(* ------------------------------------------------------------------- *)
(** *** Direct sending: POST /api/send-email                            *)
(* ------------------------------------------------------------------- *)

(** The payload of the answer: an error object, or the success object. *)
Inductive DirectBody : Type :=
| DirectError (msg : string)
| DirectSent.

Definition DirectResponse : Type := DirectBody * Z.

(** The outer [except Exception as e] clause, for the text of [str(e)].
    The traceback goes to the error stream, which is not modelled. *)
Definition direct_failed (message : string) : M DirectResponse :=
  print ("Send email exception: " +:+ message);;
  ret (DirectError message, 500).

(** The body of the [try] that refreshes an expired token. *)
Definition direct_refresh_body (w : World) (token : MicrosoftToken.t)
    : M (DirectResponse + MicrosoftToken.t) :=
  let tenant_id :=
    Py.or_str (environ w !! "MS_TENANT_ID") (default "common" (environ w !! "MS_TENANT")) in
  let token_url :=
    "https://login.microsoftonline.com/" +:+ tenant_id +:+ "/oauth2/v2.0/token" in
  let refresh_data :=
    JObj {[ "client_id" := Py.json_of_opt (environ w !! "MS_CLIENT_ID");
            "client_secret" := Py.json_of_opt (environ w !! "MS_CLIENT_SECRET");
            "refresh_token" := MicrosoftToken.refresh_token token;
            "grant_type" := JStr "refresh_token";
            "scope" := JStr "openid profile email User.Read Mail.Read Mail.Send offline_access" ]} in
  refresh_response ← http w (mkRequest "POST" token_url refresh_data);
  if response_ok refresh_response then
    token_data ← lift (response_json refresh_response);
    access ← lift (Py.get token_data "access_token" JNull);
    let token :=
      MicrosoftToken.mk access (MicrosoftToken.refresh_token token)
        (MicrosoftToken.expires_at token) in
    set_token token;;
    refresh ← lift (Py.get token_data "refresh_token" (MicrosoftToken.refresh_token token));
    let token :=
      MicrosoftToken.mk (MicrosoftToken.access_token token) refresh
        (MicrosoftToken.expires_at token) in
    set_token token;;
    expires_in ← lift (Py.get token_data "expires_in" (JNum 3600));
    seconds ← lift (Py.timedelta_seconds expires_in);
    let token :=
      MicrosoftToken.mk (MicrosoftToken.access_token token)
        (MicrosoftToken.refresh_token token) (Some (utcnow w + seconds)) in
    set_token token;;
    commit w;;
    print "Token refreshed successfully";;
    ret (inr token)
  else
    print ("Token refresh failed: " +:+ text refresh_response);;
    ret (inl (DirectError "Token expired. Please sign in with Microsoft again.", 401)).

(** Finding the token and refreshing it when it has expired: [inl] is an
    early [return] of the handler. *)
Definition direct_token (w : World) : M (DirectResponse + MicrosoftToken.t) :=
  if negb (microsoft_models w) then
    ret (inl (DirectError "Microsoft integration not configured", 500))
  else
    query w;;
    d ← get_db;
    match head (tokens d) with
    | None =>
        ret (inl (DirectError
                    "Microsoft not connected. Please sign in with Microsoft first.", 401))
    | Some token =>
        if negb (Py.truthy (MicrosoftToken.access_token token)) then
          ret (inl (DirectError
                      "No access token found. Please reconnect Microsoft account.", 401))
        else
          let token_expired :=
            match MicrosoftToken.expires_at token with
            | Some expires_at => expires_at <? utcnow w
            | None => false
            end in
          if (token_expired && Py.truthy (MicrosoftToken.refresh_token token))%bool then
            try_except (direct_refresh_body w token)
              (fun e =>
                 print ("Token refresh exception: " +:+ Py.str_exn e);;
                 ret (inl (DirectError ("Token refresh failed: " +:+ Py.str_exn e), 401)))
          else ret (inr token)
    end.

(** [body.replace('\n', '<br>') if body else '']; only strings have the
    method. *)
Definition direct_html_body (body : json) : result string :=
  if Py.truthy body then
    match body with
    | JStr s => Ok (Py.replace_char newline "<br>" s)
    | _ => Raise Py.AttributeError
    end
  else Ok "".

(** The HTML document wrapped around the body of the email. *)
Definition direct_full_html (html_body : string) : string :=
  "<!DOCTYPE html>" +:+ String newline
  ("<html>" +:+ String newline
   ("<head>" +:+ String newline
    ("    <meta charset=" +:+ quote +:+ "utf-8" +:+ quote +:+ ">" +:+ String newline
     ("    <meta name=" +:+ quote +:+ "viewport" +:+ quote +:+ " content=" +:+ quote +:+
      "width=device-width, initial-scale=1.0" +:+ quote +:+ ">" +:+ String newline
      ("</head>" +:+ String newline
       ("<body style=" +:+ quote +:+
        "font-family: Arial, sans-serif; font-size: 14px; line-height: 1.6; color: #333333;" +:+
        quote +:+ ">" +:+ String newline
        ("    <div style=" +:+ quote +:+ "max-width: 600px; margin: 0 auto; padding: 20px;" +:+
         quote +:+ ">" +:+ String newline
         ("        " +:+ html_body +:+ String newline
          ("    </div>" +:+ String newline
           ("</body>" +:+ String newline "</html>")))))))))).

(** The call that sends the message. *)
Definition direct_mail_request (to_email subject : json) (full_html : string)
    : HttpRequest :=
  mkRequest "POST" "https://graph.microsoft.com/v1.0/me/sendMail"
    (JObj {[ "message" :=
               JObj {[ "subject" := subject;
                       "body" := JObj {[ "contentType" := JStr "HTML";
                                         "content" := JStr full_html ]};
                       "toRecipients" :=
                         JArr [JObj {[ "emailAddress" := JObj {[ "address" := to_email ]} ]}];
                       "importance" := JStr "normal";
                       "isReadReceiptRequested" := JBool false;
                       "isDeliveryReceiptRequested" := JBool false ]};
             "saveToSentItems" := JBool true ]}).

(** What follows a send that the provider accepted. The name [ActivityLog]
    is bound nowhere in the module (the model of the logs is [Log]), so the
    call that would build the log raises a [NameError]; the statements that
    follow it in the source are never reached. *)
Definition direct_after_send (w : World) (g : Engine) (to_email lead_id : json)
    : M DirectResponse :=
  print ("Email sent successfully to " +:+ Py.str_json to_email);;
  (* Log the activity if lead_id provided *)
  if Py.truthy lead_id then
    query w;;
    match bound_id g lead_id with
    | inl message => direct_failed message
    | inr None => ret (DirectSent, 200)
    | inr (Some id) =>
        lead ← lead_row id;
        match lead with
        | Some _ => direct_failed "name 'ActivityLog' is not defined"
        | None => ret (DirectSent, 200)
        end
    end
  else ret (DirectSent, 200).

(** What follows a send that the provider refused. *)
Definition direct_refused (response : HttpResponse) : M DirectResponse :=
  let error_detail := text response in
  print ("Failed to send email: " +:+ error_detail);;
  match
    (error_json ← response_json response;
     error ← Py.get error_json "error" (JObj ∅);
     error_msg ← Py.get error "message" (JStr error_detail);
     error ← Py.get error_json "error" (JObj ∅);
     error_code ← Py.get error "code" (JStr "");
     Ok (error_msg, error_code))
  with
  | Ok (error_msg, error_code) =>
      if (Py.eq_str error_code "ErrorAccessDenied" || Py.str_in "Mail.Send" error_detail)%bool
      then
        ret (DirectError
               "Mail.Send permission not granted. Please reconnect Microsoft with email permissions.",
             403)
      else ret (DirectError ("Failed to send email: " +:+ Py.str_json error_msg), 500)
  | Raise _ => ret (DirectError ("Failed to send email: " +:+ error_detail), 500)
  end.

(** [send_email_direct()], with [data = request.json]. *)
Definition send_email_direct (w : World) (g : Engine) (data : json) : M DirectResponse :=
  finally_close (
    try_except (
      to_email ← lift (Py.get data "to" JNull);
      subject ← lift (Py.get data "subject" JNull);
      body ← lift (Py.get data "body" JNull);
      lead_id ← lift (Py.get data "lead_id" JNull);
      if (negb (Py.truthy to_email) || negb (Py.truthy subject) || negb (Py.truthy body))%bool
      then ret (DirectError "Missing required fields: to, subject, body", 400)
      else
        token ← direct_token w;
        match token with
        | inl response => ret response
        | inr token =>
            (* Send email via Microsoft Graph API *)
            html_body ← lift (direct_html_body body);
            let full_html := direct_full_html html_body in
            print ("Sending email to " +:+ Py.str_json to_email +:+ " with subject: " +:+
                   Py.str_json subject);;
            response ← http w (direct_mail_request to_email subject full_html);
            if status_code response =? 202 then direct_after_send w g to_email lead_id
            else direct_refused response
        end)
      (fun e => direct_failed (Py.str_exn e))).

(* ------------------------------------------------------------------- *)
(** *** Leads API: POST /api/leads/<lead_id>/quick-status               *)
(* ------------------------------------------------------------------- *)

(** What the database driver makes of a decoded JSON value that is bound
    to the text column [status] and is neither a string nor null: the text
    that it stores, or the message of the error that the flush of the
    commit raises. The source does not decide it. *)
Record TextColumn : Type := mkTextColumn {
  bind_text : json -> string + option string
}.

(** The value that the column takes. *)
Definition bound_text (g : TextColumn) (v : json) : string + option string :=
  match v with
  | JStr s => inr (Some s)
  | JNull => inr None
  | _ => bind_text g v
  end.

(** The payload of the answer: an error object or the dict of the lead; or
    the text of the exception that leaves the view, which catches none,
    and that the framework answers with the code 500. *)
Inductive StatusBody : Type :=
| StatusError (msg : string)
| StatusUpdated (lead : Lead.t)
| StatusUnhandled (message : string).

Definition StatusResponse : Type := StatusBody * Z.

(** [quick_status_update(lead_id)], with [data = request.json]. The
    handler of [try_except] stands for the framework, not for a clause of
    the view. *)
Definition quick_status_update (w : World) (g : TextColumn) (lead_id : Z) (data : json)
    : M StatusResponse :=
  finally_close (
    try_except (
      lead ← query_lead w lead_id;
      match lead with
      | None => ret (StatusError "Lead not found", 404)
      | Some lead =>
          status ← lift (Py.get data "status" (Py.json_of_opt (Lead.status lead)));
          match bound_text g status with
          | inl message => ret (StatusUnhandled message, 500)
          | inr status =>
              let lead := Lead.set_status status lead in
              let lead := Lead.set_last_activity (Some (utcnow w)) lead in
              set_lead lead;;
              commit w;;
              ret (StatusUpdated lead, 200)
          end
      end)
      (fun e => ret (StatusUnhandled (Py.str_exn e), 500))).

End App.


(* ===================================================================== *)
(** ** api/microsoft_integration.py: the email sync route                *)
(* ===================================================================== *)

(** Equality of decoded JSON values is decidable. *)
#[global] Instance json_eq_dec : EqDecision json.
Proof.
  refine (fix go (x y : json) {struct x} : Decision (x = y) :=
    let _ : EqDecision json := @go in
    match x, y with
    | JNull, JNull => left _
    | JBool a, JBool b => cast_if (decide (a = b))
    | JNum a, JNum b => cast_if (decide (a = b))
    | JStr a, JStr b => cast_if (decide (a = b))
    | JArr a, JArr b => cast_if (decide (a = b))
    | JObj a, JObj b => cast_if (decide (a = b))
    | _, _ => right _
    end); abstract congruence.
Defined.

Module MicrosoftRoutes.

(** Row of [microsoft_tokens] with the column that ties it to a team
    member; the other columns are those of [MicrosoftToken.t]. *)
Record TokenRow : Type := mkTokenRow {
  token_user_id : option Z;
  token : MicrosoftToken.t
}.

(** [MicrosoftToken.is_expired]: a [datetime] is always true, so the
    condition is whether the column is set. *)
Definition is_expired (w : World) (t : MicrosoftToken.t) : bool :=
  match MicrosoftToken.expires_at t with
  | Some expires_at => utcnow w >=? expires_at
  | None => true
  end.

(** Row of [tracked_emails]. The text columns hold what the constructor
    call assigned, a decoded JSON value; the embedding compares message
    ids as such values, which is the comparison of the database on the
    strings and nulls that the mail provider sends. *)
Module TrackedEmail.
Record t : Type := mk {
  user_id : Z;
  lead_id : option Z;
  microsoft_message_id : json;
  subject : json;
  recipient_email : json;
  category : option string;
  sent_at : option datetime
}.
End TrackedEmail.

(** Row of [email_sync_status]; [user_id] is unique. *)
Module EmailSyncStatus.
Record t : Type := mk {
  last_sync_at : option datetime;
  emails_synced : option Z;
  status : option string;
  error_message : option string
}.
End EmailSyncStatus.

(** The tables that the route reads and writes. The sync statuses are
    keyed by their unique [user_id]; the tracked emails are in the order in
    which they were added. *)
Record Tables : Type := mkTables {
  token_rows : list TokenRow;
  tracked : list TrackedEmail.t;
  statuses : gmap Z EmailSyncStatus.t;
  lead_rows : gmap Z Lead.t
}.

(** What the route takes from its surroundings besides the world of the
    request: the [user_id] of the Flask session, which only the login
    callback writes, with the id of a team member; and the [ILIKE] of the
    database, as a test of a pattern against a text. *)
Record Env : Type := mkEnv {
  session_user_id : option Z;
  ilike : string -> string -> bool
}.

(** State of one request: the pending rows of the session, what the
    database holds, the lines printed so far and the calls made so far. *)
Record Session : Type := mkSession {
  pending : Tables;
  stored : Tables;
  printed : list string;
  calls : list HttpRequest
}.

Definition R (A : Type) : Type := Session -> result A * Session.

#[global] Instance R_ret : MRet R := fun A a st => (Ok a, st).
#[global] Instance R_bind : MBind R :=
  fun A B k m st =>
    match m st with
    | (Ok a, st') => k a st'
    | (Raise e, st') => (Raise e, st')
    end.

(** Run a computation that cannot touch the state; [raise e]. *)
Definition lift {A} (r : result A) : R A := fun st => (r, st).

Definition print (line : string) : R unit :=
  fun st => (Ok tt, mkSession (pending st) (stored st) (printed st ++ [line]) (calls st)).

Definition get_tables : R Tables := fun st => (Ok (pending st), st).

Definition put_tables (t : Tables) : R unit :=
  fun st => (Ok tt, mkSession t (stored st) (printed st) (calls st)).

(** [db_session.commit()] *)
Definition commit : R unit :=
  fun st => (Ok tt, mkSession (pending st) (pending st) (printed st) (calls st)).

(** [try: body except Exception as e: handler(e)] *)
Definition try_except {A} (body : R A) (handler : Py.exn -> R A) : R A :=
  fun st =>
    match body st with
    | (Ok a, st') => (Ok a, st')
    | (Raise e, st') => handler e st'
    end.

(** [try: body finally: db_session.close()] *)
Definition finally_close {A} (body : R A) : R A :=
  fun st =>
    match body st with
    | (r, st') => (r, mkSession (stored st') (stored st') (printed st') (calls st'))
    end.

(** A call through [_http_session]. *)
Definition http (w : World) (rq : HttpRequest) : R HttpResponse :=
  fun st =>
    (net w rq, mkSession (pending st) (stored st) (printed st) (calls st ++ [rq])).

(** [get_session()] *)
Definition get_session (t : Tables) : Session := mkSession t t [] [].

(** The in-place mutation of the sync status of a user reaches its row. *)
Definition set_status (user_id : Z) (s : EmailSyncStatus.t) : R unit :=
  t ← get_tables;
  put_tables (mkTables (token_rows t) (tracked t) (<[user_id := s]> (statuses t)) (lead_rows t)).

(** [db_session.add(tracked)] *)
Definition add_tracked (e : TrackedEmail.t) : R unit :=
  t ← get_tables;
  put_tables (mkTables (token_rows t) (tracked t ++ [e]) (statuses t) (lead_rows t)).

(** [v[k]] for a string key. *)
Definition getitem (v : json) (k : string) : result json :=
  match v with
  | JObj d =>
      match d !! k with
      | Some x => Ok x
      | None => Raise Py.KeyError
      end
  | _ => Raise Py.TypeError
  end.

(** [db_session.query(TrackedEmail).filter_by(microsoft_message_id=msg_id).first()],
    as the truth value that the code takes of it. The query sees the rows
    that the session holds pending. *)
Definition query_existing (msg_id : json) : R bool :=
  t ← get_tables;
  mret (bool_decide (Exists (fun e => TrackedEmail.microsoft_message_id e = msg_id) (tracked t))).

(** [db_session.query(Lead).filter(Lead.email.ilike(pattern)).first()]; a
    NULL address matches no pattern. *)
Definition query_lead_ilike (v : Env) (pattern : string) : R (option Lead.t) :=
  t ← get_tables;
  mret (head (filter (fun l => match Lead.email l with
                               | Some address => ilike v pattern address
                               | None => false
                               end = true)
                (map_to_list (lead_rows t)).*2)).

(** The value passed as [sent_at]. *)
Definition sent_at_of (w : World) (msg : json) : result (option datetime) :=
  sent ← Py.get msg "sentDateTime" JNull;
  if Py.truthy sent then
    sent ← getitem msg "sentDateTime";
    match sent with
    | JStr s => t ← fromisoformat w (Py.replace_char "Z" "+00:00" s); Ok (Some t)
    | _ => Raise Py.AttributeError
    end
  else Ok None.

(** The body of [for msg in messages]: the result is [emails_synced] after
    the message. *)
Definition sync_message (w : World) (v : Env) (user_id : Z) (msg : json)
    (emails_synced : Z) : R Z :=
  subject ← lift (Py.get msg "subject" (JStr ""));
  category ← lift (MicrosoftIntegration.categorize_email subject);
  (* Only track emails with matching categories *)
  if Py.truthy_str category then
    msg_id ← lift (Py.get msg "id" JNull);
    (* Check if already tracked *)
    existing ← query_existing msg_id;
    if negb existing then
      (* Get recipient email *)
      recipients ← lift (Py.get msg "toRecipients" (JArr []));
      recipient_email ←
        lift (if Py.truthy recipients then
                first ← Py.first_item recipients;
                email_address ← getitem first "emailAddress";
                getitem email_address "address"
              else Ok (JStr ""));
      (* Try to match to a lead *)
      lead ←
        (if Py.truthy recipient_email
         then query_lead_ilike v ("%" +:+ Py.str_json recipient_email +:+ "%")
         else mret None);
      (* Create tracked email *)
      sent_at ← lift (sent_at_of w msg);
      add_tracked
        (TrackedEmail.mk user_id (Lead.id <$> lead) msg_id subject recipient_email
           category sent_at);;
      mret (emails_synced + 1)
    else mret emails_synced
  else mret emails_synced.

(** [for msg in messages: ...] *)
Fixpoint sync_loop (w : World) (v : Env) (user_id : Z) (messages : list json)
    (emails_synced : Z) : R Z :=
  match messages with
  | [] => mret emails_synced
  | msg :: rest =>
      emails_synced ← sync_message w v user_id msg emails_synced;
      sync_loop w v user_id rest emails_synced
  end.

Definition sent_items_request : HttpRequest :=
  mkRequest "GET" "https://graph.microsoft.com/v1.0/me/mailFolders/SentItems/messages"
    (JObj {[ "$top" := JNum 100;
             "$select" := JStr "id,subject,toRecipients,sentDateTime";
             "$orderby" := JStr "sentDateTime desc" ]}).

(** The payload of the answer: an error object, or the success object with
    the number of emails synced. *)
Inductive SyncBody : Type :=
| SyncError (msg : string)
| SyncDone (emails_synced : Z).

Definition SyncResponse : Type := SyncBody * Z.

Definition with_status (status : string) (s : EmailSyncStatus.t) : EmailSyncStatus.t :=
  EmailSyncStatus.mk (EmailSyncStatus.last_sync_at s) (EmailSyncStatus.emails_synced s)
    (Some status) (EmailSyncStatus.error_message s).

Definition with_error (message : string) (s : EmailSyncStatus.t) : EmailSyncStatus.t :=
  EmailSyncStatus.mk (EmailSyncStatus.last_sync_at s) (EmailSyncStatus.emails_synced s)
    (Some "error") (Some message).

(** The inner [try] block: fetch the sent items and track them. *)
Definition fetch_and_track (w : World) (v : Env) (user_id : Z)
    (sync_status : EmailSyncStatus.t) : R SyncResponse :=
  response ← http w sent_items_request;
  if status_code response =? 200 then
    body ← lift (response_json response);
    messages ← lift (Py.get body "value" (JArr []));
    messages ← lift (Py.iter messages);
    emails_synced ← sync_loop w v user_id messages 0;
    commit;;
    let sync_status :=
      EmailSyncStatus.mk (Some (utcnow w))
        (Some (default 0 (EmailSyncStatus.emails_synced sync_status) + emails_synced))
        (Some "completed") (EmailSyncStatus.error_message sync_status) in
    set_status user_id sync_status;;
    commit;;
    mret (SyncDone emails_synced, 200)
  else
    set_status user_id
      (with_error ("Graph API error: " +:+ Py.str_int (status_code response)) sync_status);;
    commit;;
    mret (SyncError "Failed to fetch emails", 500).

(** [sync_emails()] *)
Definition sync_emails (w : World) (v : Env) : R SyncResponse :=
  finally_close (
    try_except (
      (* Get actual user_id from session *)
      if negb (Py.truthy_int (session_user_id v)) then
        mret (SyncError "Not authenticated", 401)
      else
        let user_id := default 0 (session_user_id v) in
        (* Get Microsoft token for this user *)
        t ← get_tables;
        let token_record :=
          head (filter (fun r => token_user_id r = Some user_id) (token_rows t)) in
        if match token_record with
           | Some r => is_expired w (token r)
           | None => true
           end
        then mret (SyncError "Microsoft not connected or token expired", 401)
        else
          (* Update sync status; a new row takes the defaults of its columns
             at the commit that follows *)
          let sync_status :=
            default (EmailSyncStatus.mk None (Some 0) (Some "pending") None)
              (statuses t !! user_id) in
          let sync_status := with_status "syncing" sync_status in
          set_status user_id sync_status;;
          commit;;
          (* Fetch sent emails from Microsoft Graph *)
          try_except (fetch_and_track w v user_id sync_status)
            (fun e =>
               set_status user_id (with_error (Py.str_exn e) sync_status);;
               commit;;
               lift (Raise e)))
      (fun e =>
         print ("Email sync error: " +:+ Py.str_exn e);;
         mret (SyncError (Py.str_exn e), 500))).

(** [CATEGORY_CONFIG]: the display of a category. *)
Record CategoryConfig : Type := mkConfig {
  label : string;
  color : string;
  icon : string
}.

Definition CATEGORY_CONFIG : list (string * CategoryConfig) :=
  [ ("introduction", mkConfig "Introduction" "#3b82f6" "👋");
    ("follow_up", mkConfig "Follow Up" "#8b5cf6" "🔄");
    ("meeting_date", mkConfig "Meeting Date" "#f59e0b" "📅");
    ("contract_deal", mkConfig "Contract Deal" "#10b981" "📄");
    ("deal_closed", mkConfig "Deal Closed" "#22c55e" "🎉") ].

(** [CATEGORY_CONFIG.get(category, {})]: [None] is the empty dict. *)
Definition category_config (category : string) : option CategoryConfig :=
  snd <$> head (filter (fun item => item.1 = category) CATEGORY_CONFIG).

(** One more row of a category in the groups of a [GROUP BY]. *)
Fixpoint bump (category : option string) (groups : list (option string * Z))
    : list (option string * Z) :=
  match groups with
  | [] => [(category, 1)]
  | (c, n) :: rest =>
      if decide (c = category) then (c, n + 1) :: rest
      else (c, n) :: bump category rest
  end.

(** [db_session.query(TrackedEmail.category, func.count(TrackedEmail.id))
    .group_by(TrackedEmail.category).all()]: one pair for each category of
    the table, NULL being one of them, with the number of its rows. The
    pairs are in the order of the first row of each category; the route
    fills a dict from them, for which their order does not matter. *)
Definition category_counts (rows : list TrackedEmail.t) : list (option string * Z) :=
  foldl (fun groups e => bump (TrackedEmail.category e) groups) [] rows.

(** The [stats] dict: the entry of a category in [by_category] is its count
    with the keys of its display, none of which is 'count'; [last_sync] is
    the row that [to_dict] renders, when the key is set. *)
Record Stats : Type := mkStats {
  total : Z;
  by_category : gmap string (Z * option CategoryConfig);
  last_sync : option EmailSyncStatus.t
}.

(** The body of [for category, count in category_counts]. *)
Definition count_category (stats : Stats) (group : option string * Z) : Stats :=
  let '(category, count) := group in
  if Py.truthy_str category then
    let category := default "" category in
    mkStats (total stats + count)
      (<[category := (count, category_config category)]> (by_category stats))
      (last_sync stats)
  else stats.

(** [get_tracked_email_stats()] *)
Definition get_tracked_email_stats (v : Env) : R Stats :=
  finally_close (
    t ← get_tables;
    (* Count by category *)
    let category_counts := category_counts (tracked t) in
    let stats := mkStats 0 ∅ None in
    let stats := foldl count_category stats category_counts in
    (* Get sync status for current user *)
    let current_user_id := session_user_id v in
    let sync_status :=
      if Py.truthy_int current_user_id
      then statuses t !! default 0 current_user_id
      else None in
    mret (match sync_status with
          | Some row => mkStats (total stats) (by_category stats) (Some row)
          | None => stats
          end)).

End MicrosoftRoutes.
(* ===================================================================== *)
(** ** Vocabulary of the specification                                   *)
(* ===================================================================== *)

(** The index of the specification: the position of a status in the
    canonical order, and -1 for a value that is not in it. *)
Fixpoint position (l : list string) (s : string) : option nat :=
  match l with
  | [] => None
  | x :: r => if decide (x = s) then Some 0%nat else S <$> position r s
  end.

Definition canonical_index (s : string) : Z :=
  match position App.PIPELINE_ORDER s with
  | Some i => Z.of_nat i
  | None => -1
  end.

(** The status the rule works from: the stored one, or ["Not Contacted"]
    when the attribute is unset ([None] or the empty string). *)
Definition current_status (lead : Lead.t) : string :=
  Py.or_str (Lead.status lead) "Not Contacted".

(** A keyword occurs in a subject when the subject, read without regard to
    case, has the keyword as a contiguous part. *)
Definition occurs_in (keyword subject : string) : Prop :=
  exists before after : string,
    Py.lower subject = before +:+ Py.lower keyword +:+ after.

(** Some keyword of the list occurs in the subject. *)
Definition some_keyword_occurs (keywords : list string) (subject : string) : Prop :=
  exists keyword, keyword ∈ keywords /\ occurs_in keyword subject.

(** Every keyword of the table is written in lower case. *)
Definition lowercase_table (items : list (string * list string)) : bool :=
  forallb (fun item => forallb (fun k => String.eqb (Py.lower k) k) item.2) items.

(** The table of call sites: the status proposed for a logged activity of
    the given type and outcome, [None] when the rule is not invoked. *)
Definition proposed_for (activity_type outcome : json) : option string :=
  if Py.eq_str activity_type "Call" then
    if (Py.eq_str outcome "Connected" || Py.eq_str outcome "Interested")%bool
    then Some "Connected"
    else Some "Attempted"
  else if Py.eq_str activity_type "Email" then Some "Attempted"
  else if Py.eq_str activity_type "Meeting" then Some "Connected"
  else None.

(** The subject and the sender address that the matcher reads off an
    inbox message. *)
Definition message_subject (msg : json) : result json :=
  Py.get msg "subject" (JStr "").

Definition sender_address (msg : json) : result json :=
  sender ← Py.get msg "from" (JObj ∅);
  email_address ← Py.get sender "emailAddress" (JObj ∅);
  Py.get email_address "address" (JStr "").

(** The recipient address and the subject of a sent email, the empty string
    standing for a missing one. *)
Definition recipient_address (sent_email : GeneratedEmail.t) : string :=
  Py.or_str (GeneratedEmail.recipient_email sent_email) "".

Definition sent_subject (sent_email : GeneratedEmail.t) : string :=
  Py.or_str (GeneratedEmail.subject sent_email) "".

(** Two addresses are the same without regard to case. *)
Definition same_address (a b : string) : Prop := Py.lower a = Py.lower b.

(** A subject starts with "re:" without regard to case. *)
Definition starts_with_re (subject : string) : Prop :=
  exists rest, Py.lower subject = "re:" +:+ rest.

(** The matching rule as the specification words it: same address, "re:"
    prefix, and the sent subject contained in the message subject. *)
Definition stated_reply_rule (sent_email : GeneratedEmail.t)
    (sender subject : string) : Prop :=
  same_address sender (recipient_address sent_email) /\
  starts_with_re subject /\
  occurs_in (sent_subject sent_email) subject.

(** The row of a sent email after a reply has been recorded on it: marked
    replied, with the given instant and snippet; the columns that the
    matcher reads are as before. *)
Definition replied_row (before : GeneratedEmail.t) (replied_at : datetime)
    (snippet : string) (after : GeneratedEmail.t) : Prop :=
  GeneratedEmail.id after = GeneratedEmail.id before /\
  GeneratedEmail.status after = GeneratedEmail.status before /\
  GeneratedEmail.recipient_email after = GeneratedEmail.recipient_email before /\
  GeneratedEmail.subject after = GeneratedEmail.subject before /\
  GeneratedEmail.reply_status after = Some "replied" /\
  GeneratedEmail.replied_at after = Some replied_at /\
  GeneratedEmail.reply_snippet after = Some snippet.

(** The received timestamp and the body preview that the matcher reads off
    an inbox message ([None] when the field is absent). *)
Definition received_timestamp (msg : json) : result json :=
  Py.get msg "receivedDateTime" JNull.

Definition body_preview (msg : json) : result json :=
  Py.get msg "bodyPreview" JNull.

(** The first message of the inbox, in the order given, that is a reply to
    the sent email; an exception if deciding it raises before one is found. *)
Fixpoint first_reply (sent_email : GeneratedEmail.t) (inbox_messages : list json)
    : result (option json) :=
  match inbox_messages with
  | [] => Ok None
  | msg :: rest =>
      match App.is_reply sent_email msg with
      | Raise e => Raise e
      | Ok true => Ok (Some msg)
      | Ok false => first_reply sent_email rest
      end
  end.


(** The sent emails that a run of the matcher considers. *)
Definition awaiting (w : World) (db : DB) : list GeneratedEmail.t :=
  filter (fun e => App.awaiting_reply w e = true) (in_id_order (emails db)).

(* ===================================================================== *)
(** ** Vocabulary of the further properties                              *)
(* ===================================================================== *)

(** The rule invoked for each proposal of a list in turn, on the lead as
    the invocation before left it. *)
Fixpoint advance_each (lead : option Lead.t) (proposals : list (string * string))
    : M (option Lead.t) :=
  match proposals with
  | [] => ret lead
  | (proposed, reason) :: rest =>
      lead' ← App.advance_lead_status lead proposed reason;
      advance_each lead' rest
  end.

(** Two leads that differ in their status at most. *)
Definition same_but_status (a b : Lead.t) : Prop :=
  Lead.id a = Lead.id b /\
  Lead.business_name a = Lead.business_name b /\
  Lead.email a = Lead.email b /\
  Lead.last_activity a = Lead.last_activity b /\
  Lead.activity_count a = Lead.activity_count b.


(** The furthest index in the canonical order among a starting index and
    the indices of the proposed statuses. *)
Definition furthest_index (start : Z) (proposed : list string) : Z :=
  foldr (fun p m => Z.max (canonical_index p) m) start proposed.

(** The lead with the status that is furthest along among its current one
    and the proposed ones; a lead in a terminal status as it is. *)
Definition furthest (lead : Lead.t) (proposed : list string) : Lead.t :=
  let cur := canonical_index (current_status lead) in
  let m := furthest_index cur proposed in
  if bool_decide (current_status lead ∈ App.TERMINAL_STATUSES) then lead
  else if m >? cur then Lead.set_status (App.PIPELINE_ORDER !! Z.to_nat m) lead
  else lead.

(** The place of a category in the table of the categorizer. *)
Definition category_rank (category : string) : option nat :=
  position MicrosoftIntegration.OUTREACH_CATEGORIES.*1 category.



(** Whether the inbox holds a reply to the sent email. *)
Definition has_reply (sent_email : GeneratedEmail.t) (inbox_messages : list json) : bool :=
  match first_reply sent_email inbox_messages with
  | Ok (Some _) => true
  | _ => false
  end.

(** The messages of the inbox as the provider lists them to a run of the
    reply tracker. *)
Definition inbox_of (w : World) : result (list json) :=
  resp ← net w App.inbox_request;
  body ← response_json resp;
  inbox ← Py.get body "value" (JArr []);
  Py.iter inbox.

(** A lead is stored under its primary key. *)
Definition leads_keyed_by_id (table : gmap Z Lead.t) : Prop :=
  forall k l, table !! k = Some l -> Lead.id l = k.

(** Between two states of the table of leads, every lead is as it was or
    has been advanced to 'Connected' by the rule; no lead has appeared or
    gone. *)
Definition connected_or_same (before after : gmap Z Lead.t) : Prop :=
  forall k,
    after !! k = before !! k \/
    exists l, before !! k = Some l /\ after !! k = Some (furthest l ["Connected"]).

(** The message ids of tracked emails. *)
Definition tracked_ids (rows : list MicrosoftRoutes.TrackedEmail.t) : list json :=
  MicrosoftRoutes.TrackedEmail.microsoft_message_id <$> rows.

(** The id under which the sync tracks a sent message: that of a message
    whose subject the categorizer assigns a category; [None] for a message
    that it leaves out. *)
Definition tracking_id (msg : json) : result (option json) :=
  subject ← Py.get msg "subject" (JStr "");
  category ← MicrosoftIntegration.categorize_email subject;
  if Py.truthy_str category then
    msg_id ← Py.get msg "id" JNull;
    Ok (Some msg_id)
  else Ok None.

(** A tracked email as the sync makes it: of the user of the session, with
    the category that the categorizer assigns to its subject. *)
Definition categorized_for (user_id : Z) (e : MicrosoftRoutes.TrackedEmail.t) : Prop :=
  MicrosoftRoutes.TrackedEmail.user_id e = user_id /\
  Py.truthy_str (MicrosoftRoutes.TrackedEmail.category e) = true /\
  MicrosoftIntegration.categorize_email (MicrosoftRoutes.TrackedEmail.subject e) =
    Ok (MicrosoftRoutes.TrackedEmail.category e).

(** The sent message is tracked among the rows, if the sync tracks it at
    all. *)
Definition covered (rows : list MicrosoftRoutes.TrackedEmail.t) (msg : json) : Prop :=
  exists o, tracking_id msg = Ok o /\
            forall msg_id, o = Some msg_id -> msg_id ∈ tracked_ids rows.

(** The token row of a user. *)
Definition token_row_of (user_id : Z) (t : MicrosoftRoutes.Tables)
    : option MicrosoftRoutes.TokenRow :=
  head (filter (fun r => MicrosoftRoutes.token_user_id r = Some user_id)
          (MicrosoftRoutes.token_rows t)).

(** The sent messages that the provider lists to a sync; [None] when the
    listing fails or cannot be read. *)
Definition sent_items_of (w : World) : option (list json) :=
  match net w MicrosoftRoutes.sent_items_request with
  | Ok resp =>
      if status_code resp =? 200 then
        match (body ← response_json resp;
               value ← Py.get body "value" (JArr []);
               Py.iter value) with
        | Ok messages => Some messages
        | Raise _ => None
        end
      else None
  | Raise _ => None
  end.

(** The number of emails that the syncs of a user have added so far. *)
Definition synced_so_far (user_id : Z) (t : MicrosoftRoutes.Tables) : Z :=
  match MicrosoftRoutes.statuses t !! user_id with
  | Some s => default 0 (MicrosoftRoutes.EmailSyncStatus.emails_synced s)
  | None => 0
  end.

(** The status of the sync of a user. *)
Definition sync_status_of (user_id : Z) (t : MicrosoftRoutes.Tables) : option string :=
  s ← MicrosoftRoutes.statuses t !! user_id;
  MicrosoftRoutes.EmailSyncStatus.status s.

(** A sync is refused when the session names no user, when the user has no
    token, or when the token of the user has no expiry or one that is not
    after the instant of the request. *)
Definition sync_refused (w : World) (v : MicrosoftRoutes.Env) (t : MicrosoftRoutes.Tables)
    : Prop :=
  Py.truthy_int (MicrosoftRoutes.session_user_id v) = false \/
  token_row_of (default 0 (MicrosoftRoutes.session_user_id v)) t = None \/
  exists row,
    token_row_of (default 0 (MicrosoftRoutes.session_user_id v)) t = Some row /\
    forall expires_at,
      MicrosoftToken.expires_at (MicrosoftRoutes.token row) = Some expires_at ->
      expires_at <= utcnow w.

(** The tracked emails of a category, and those that have a category at
    all: one that is neither NULL nor empty. *)
Definition tracked_in (category : option string) (rows : list MicrosoftRoutes.TrackedEmail.t)
    : list MicrosoftRoutes.TrackedEmail.t :=
  filter (fun e => MicrosoftRoutes.TrackedEmail.category e = category) rows.

Definition with_category (rows : list MicrosoftRoutes.TrackedEmail.t)
    : list MicrosoftRoutes.TrackedEmail.t :=
  filter (fun e => Py.truthy_str (MicrosoftRoutes.TrackedEmail.category e) = true) rows.

(** The count that the groups of a [GROUP BY] give for a category, and the
    sum of the counts of the groups that have a category. *)
Fixpoint group_count (category : option string) (groups : list (option string * Z))
    : option Z :=
  match groups with
  | [] => None
  | (c, n) :: rest =>
      if decide (c = category) then Some n else group_count category rest
  end.

Fixpoint group_total (groups : list (option string * Z)) : Z :=
  match groups with
  | [] => 0
  | (c, n) :: rest => (if Py.truthy_str c then n else 0) + group_total rest
  end.

(** No category has two groups. *)
Fixpoint groups_distinct (groups : list (option string * Z)) : Prop :=
  match groups with
  | [] => True
  | (c, _) :: rest => group_count c rest = None /\ groups_distinct rest
  end.

(** The status that a quick-status payload asks for: that of the key
    'status', a text or null; the one the lead has when the key is missing.
    [None] when the value is of another type. *)
Definition status_requested (lead : Lead.t) (fields : gmap string json)
    : option (option string) :=
  match fields !! "status" with
  | None => Some (Lead.status lead)
  | Some (JStr s) => Some (Some s)
  | Some JNull => Some None
  | Some _ => None
  end.

(** The lead after a quick-status request at the instant of the world. *)
Definition restated (w : World) (status : option string) (lead : Lead.t) : Lead.t :=
  Lead.set_last_activity (Some (utcnow w)) (Lead.set_status status lead).


(** What the [except] clause of [send_email] answers on a fresh session
    when the exception is raised before any call and any print: it rolls
    back and prints. *)
Definition send_email_failed (e : Py.exn) (db : DB) : result Response * State :=
  (Ok (ExceptionBody "" e, 500),
   mkState db db ["Send email exception: " +:+ Py.str_exn e] []).
(* ===================================================================== *)
(** ** Sample data                                                        *)
(* ===================================================================== *)

Definition sample_lead (s : option string) : Lead.t :=
  Lead.mk 7 "Acme" (Some "a@x.com") s None (Some 0).

Definition empty_db : DB := mkDB ∅ ∅ [] [].

Definition empty_state : State := mkState empty_db empty_db [] [].

Definition offline_world : World :=
  mkWorld (fun _ => Raise Py.ConnectionError) 1700000000
    (fun _ => Raise Py.ValueError) ∅ true false Orm.BASE (fun _ => true).

Definition one_lead_db (s : option string) : DB :=
  mkDB {[ 7 := sample_lead s ]} ∅ [] [].

Definition one_lead_state (s : option string) : State :=
  mkState (one_lead_db s) (one_lead_db s) [] [].

Definition call_interested : gmap string json :=
  {[ "activity_type" := JStr "Call"; "outcome" := JStr "Interested" ]}.

Definition note_only : gmap string json :=
  {[ "activity_type" := JStr "Note"; "notes" := JStr "left a brochure" ]}.

(** A sent email that awaits a reply. *)
Definition sent_email_to (id : Z) (lead_id : option Z) (recipient subject : option string)
    : GeneratedEmail.t :=
  GeneratedEmail.mk id lead_id recipient subject (Some "Hello") (Some "sent")
    (Some 1690000000) (Some "no_reply") None None None.

(** An inbox message as the mail provider lists it. *)
Definition inbox_message (sender subject : string) (more : gmap string json) : json :=
  JObj (<[ "subject" := JStr subject ]>
        (<[ "from" := JObj {[ "emailAddress" := JObj {[ "address" := JStr sender ]} ]} ]>
         more)).

Definition acme_email : GeneratedEmail.t :=
  sent_email_to 3 (Some 7) (Some "a@x.com") (Some "Introduction - Acme").

Definition no_fields : gmap string json := ∅.

Definition acme_reply : json :=
  inbox_message "A@X.com" "Re: introduction - ACME (thanks)" no_fields.

(** A mail provider that lists the given inbox and knows one timestamp. *)
Definition mail_world (inbox : list json) (now : datetime) : World :=
  mkWorld
    (fun rq =>
       if String.eqb (url rq) (url App.inbox_request)
       then Ok (mkResponse 200 (Some (JObj {[ "value" := JArr inbox ]})) "")
       else Raise Py.ConnectionError)
    now
    (fun s =>
       if String.eqb s "2024-01-05T10:00:00+00:00" then Ok 1704448800
       else Raise Py.ValueError)
    ∅ true false Orm.BASE (fun _ => true).

Definition newsletter : json :=
  inbox_message "news@y.org" "Re: Introduction - Acme" no_fields.

Definition acme_answer : json :=
  inbox_message "a@x.com" "RE: Introduction - Acme"
    {[ "receivedDateTime" := JStr "2024-01-05T10:00:00Z";
       "bodyPreview" := JStr "Thanks, let us talk next week." ]}.

Definition acme_second_answer : json :=
  inbox_message "a@x.com" "Re: Introduction - Acme"
    {[ "bodyPreview" := JStr "One more thing." ]}.

Definition acme_inbox : list json := [newsletter; acme_answer; acme_second_answer].

Definition valid_token : MicrosoftToken.t :=
  MicrosoftToken.mk (JStr "access") (JStr "refresh") (Some 1800000000).

Definition acme_db : DB :=
  mkDB {[ 7 := sample_lead (Some "Attempted") ]} {[ 3 := acme_email ]} [] [valid_token].

(** A generated email in the given lifecycle status. *)
Definition email_in_status (status : string) : GeneratedEmail.t :=
  GeneratedEmail.mk 5 (Some 7) (Some "a@x.com") (Some "Intro - Acme") (Some "Hello")
    (Some status) None (Some "no_reply") None None None.

Definition outbox_db (status : string) : DB :=
  mkDB {[ 7 := sample_lead (Some "Not Contacted") ]} {[ 5 := email_in_status status ]} []
    [valid_token].

(** A mail provider that accepts every message and lists one sent item. *)
Definition accepting_world : World :=
  mkWorld
    (fun rq =>
       if String.eqb (method rq) "POST" then Ok (mkResponse 202 None "")
       else Ok (mkResponse 200
                  (Some (JObj {[ "value" := JArr [JObj {[ "id" := JStr "AAMk1" ]}] ]})) ""))
    1704500000
    (fun _ => Raise Py.ValueError)
    ∅ true false Orm.BASE (fun _ => true).


(** A lead as an import leaves it: no activity has ever been counted. *)
Definition uncounted_lead : Lead.t :=
  Lead.mk 9 "Globex" (Some "g@y.com") (Some "Attempted") None None.

Definition uncounted_db : DB := mkDB {[ 9 := uncounted_lead ]} ∅ [] [].

(** A send of the approved sample email that the provider accepts: the
    answer and the state it leaves. *)
Definition approved_answer : Response :=
  match (App.send_email accepting_world 5 (get_session (outbox_db "approved"))).1 with
  | Ok r => r
  | Raise e => (ExceptionBody "" e, 500)
  end.

Definition approved_state : State :=
  (App.send_email accepting_world 5 (get_session (outbox_db "approved"))).2.

(** A run of the reply tracker over the sample inbox: the answer and the
    state it leaves. *)
Definition tracked_answer : Response :=
  match (App.check_email_replies (mail_world acme_inbox 1704500000)
           (get_session acme_db)).1 with
  | Ok r => r
  | Raise e => (ExceptionBody "" e, 500)
  end.

Definition tracked_state : State :=
  (App.check_email_replies (mail_world acme_inbox 1704500000) (get_session acme_db)).2.

(** A driver that refuses every value that is no integer. *)
Definition strict_engine : App.Engine :=
  App.mkEngine (fun _ => inl "unsupported type").

(** A meeting logged on the lead that was never counted. *)
Definition meeting_logged : gmap string json :=
  {[ "lead_id" := JNum 9; "activity_type" := JStr "Meeting" ]}.

(** A direct send that names the sample lead. *)
Definition direct_payload : gmap string json :=
  {[ "to" := JStr "a@x.com"; "subject" := JStr "Hello"; "body" := JStr "Hi there";
     "lead_id" := JNum 7 ]}.

(** The sent items of a mailbox: a follow-up to the sample lead, listed
    twice, and a message that the categorizer leaves out. *)
Definition follow_up_sent : json :=
  JObj {[ "id" := JStr "AAMk-1";
          "subject" := JStr "Quick follow up on our call";
          "toRecipients" :=
            JArr [JObj {[ "emailAddress" := JObj {[ "address" := JStr "A@x.com" ]} ]}];
          "sentDateTime" := JStr "2024-01-05T10:00:00Z" ]}.

Definition lunch_sent : json :=
  JObj {[ "id" := JStr "AAMk-2"; "subject" := JStr "Lunch on Friday?" ]}.

Definition sent_items : list json := [follow_up_sent; lunch_sent; follow_up_sent].

(** A mail provider that lists the sent items and knows one timestamp. *)
Definition sync_world (now : datetime) : World :=
  mkWorld
    (fun rq =>
       if String.eqb (url rq) (url MicrosoftRoutes.sent_items_request)
       then Ok (mkResponse 200 (Some (JObj {[ "value" := JArr sent_items ]})) "")
       else Raise Py.ConnectionError)
    now
    (fun s =>
       if String.eqb s "2024-01-05T10:00:00+00:00" then Ok 1704448800
       else Raise Py.ValueError)
    ∅ true false Orm.BASE (fun _ => true).

(** The session of team member 1, on a database whose [ILIKE] matches a
    pattern [%a%] against the address [a] without regard to case. *)
Definition member_env : MicrosoftRoutes.Env :=
  MicrosoftRoutes.mkEnv (Some 1)
    (fun pattern address =>
       String.eqb (Py.lower pattern) ("%" +:+ Py.lower address +:+ "%")).

Definition member_token : MicrosoftRoutes.TokenRow :=
  MicrosoftRoutes.mkTokenRow (Some 1)
    (MicrosoftToken.mk (JStr "access") (JStr "refresh") (Some 1800000000)).

Definition member_tables : MicrosoftRoutes.Tables :=
  MicrosoftRoutes.mkTables [member_token] [] ∅ {[ 7 := sample_lead (Some "Attempted") ]}.

(** The first sync of the member: the state it leaves. *)
Definition synced_state : MicrosoftRoutes.Session :=
  (MicrosoftRoutes.sync_emails (sync_world 1704500000) member_env
     (MicrosoftRoutes.get_session member_tables)).2.

(** A driver that refuses every value that is neither text nor null. *)
Definition strict_column : App.TextColumn :=
  App.mkTextColumn (fun _ => inl "unsupported type").

(** A database with one converted lead that has two activities. *)
Definition converted_lead : Lead.t :=
  Lead.mk 7 "Acme" (Some "a@x.com") (Some "Converted") None (Some 2).

Definition converted_db : DB := mkDB {[ 7 := converted_lead ]} ∅ [] [].

(** The world of a process in which the Microsoft models could not be
    created: the classes of [api/app.py] alone are mapped. *)
Definition app_only_world : World :=
  mkWorld (fun _ => Raise Py.ConnectionError) 1700000000
    (fun _ => Raise Py.ValueError) ∅ false false Orm.APP_CLASSES (fun _ => true).
(* ===================================================================== *)
(** ** Properties of the pipeline advancement rule                       *)
(* ===================================================================== *)

(** Unfold the monad down to state-passing functions. *)
Ltac run_m :=
  repeat (cbv beta iota delta
            [mbind mret M_bind M_ret bind ret lift print get_db put_db
             commit rollback try_except finally_close http set_lead set_email
             set_token add_log] in *;
          cbn [fst snd working committed stdout requests] in * ).


Lemma position_lookup (l : list string) (s : string) (i : nat) :
  position l s = Some i -> l !! i = Some s.
Proof.
  revert i. induction l as [|x r IH]; intros i; simpl; [discriminate|].
  destruct (decide (x = s)) as [->|Hne].
  - intros [= <-]. reflexivity.
  - destruct (position r s) as [j|] eqn:E; simpl; [|discriminate].
    intros [= <-]. simpl. apply IH. reflexivity.
Qed.

Lemma position_None (l : list string) (s : string) :
  position l s = None <-> s ∉ l.
Proof.
  induction l as [|x r IH]; simpl.
  - split; [intros _; apply not_elem_of_nil | reflexivity].
  - destruct (decide (x = s)) as [->|Hne].
    + split; [discriminate | intros H; exfalso; apply H; left].
    + destruct (position r s) as [j|] eqn:E; simpl.
      * split; [discriminate|]. intros H. exfalso.
        destruct IH as [_ IH]. 
        assert (s ∉ r) as Hr by (intros Hin; apply H; right; exact Hin).
        specialize (IH Hr). discriminate.
      * split; [|reflexivity]. intros _ Hin.
        apply elem_of_cons in Hin as [->|Hin]; [congruence|].
        destruct IH as [IH _]. apply (IH eq_refl Hin).
Qed.

Lemma in_list_position (l : list string) (s : string) :
  Py.in_list s l = match position l s with Some _ => true | None => false end.
Proof.
  induction l as [|x r IH]; simpl; [reflexivity|].
  destruct (decide (x = s)) as [->|Hne].
  - rewrite String.eqb_refl. reflexivity.
  - destruct (String.eqb_spec s x) as [->|_]; [congruence|]. simpl.
    rewrite IH. destruct (position r s); reflexivity.
Qed.

Lemma index_position (l : list string) (s : string) :
  Py.index l s =
  match position l s with
  | Some i => Ok (Z.of_nat i)
  | None => Raise Py.ValueError
  end.
Proof.
  induction l as [|x r IH]; simpl; [reflexivity|].
  destruct (decide (x = s)) as [->|Hne].
  - rewrite String.eqb_refl. reflexivity.
  - destruct (String.eqb_spec x s) as [->|_]; [congruence|].
    rewrite IH. destruct (position r s) as [j|]; simpl; [|reflexivity].
    f_equal. lia.
Qed.

(** The guarded [index] call of the code computes the specification's
    index and never raises. *)
Lemma index_or_minus_one_canonical (s : string) :
  App.index_or_minus_one s = Ok (canonical_index s).
Proof.
  unfold App.index_or_minus_one, canonical_index.
  rewrite in_list_position, index_position.
  destruct (position App.PIPELINE_ORDER s); reflexivity.
Qed.

Lemma canonical_index_lower_bound (s : string) : -1 <= canonical_index s.
Proof. unfold canonical_index. destruct (position _ s); lia. Qed.

Lemma canonical_index_member (s : string) :
  -1 < canonical_index s -> s ∈ App.PIPELINE_ORDER.
Proof.
  unfold canonical_index.
  destruct (position App.PIPELINE_ORDER s) as [i|] eqn:E; [|lia].
  intros _. apply position_lookup in E. eapply list_elem_of_lookup_2, E.
Qed.

Lemma terminal_statuses (s : string) :
  s ∈ App.TERMINAL_STATUSES <-> s = "Not Interested" \/ s = "Converted".
Proof. unfold App.TERMINAL_STATUSES. set_solver. Qed.


(** What a call on a lead whose current status is not terminal computes,
    as a function of the two indices. *)
Lemma advance_lead_status_nonterminal (lead : Lead.t) (proposed reason : string) (st : State) :
  current_status lead ∉ App.TERMINAL_STATUSES ->
  App.advance_lead_status (Some lead) proposed reason st =
  if canonical_index proposed >? canonical_index (current_status lead) then
    (Ok (Some (Lead.set_status (Some proposed) lead)),
     mkState (working st) (committed st)
       (stdout st ++
        [App.advance_line (Lead.set_status (Some proposed) lead)
           (Lead.status lead) proposed reason])
       (requests st))
  else (Ok (Some lead), st).
Proof.
  intros Hnt. unfold App.advance_lead_status. fold (current_status lead).
  rewrite bool_decide_eq_false_2 by exact Hnt.
  rewrite !index_or_minus_one_canonical. run_m.
  destruct (canonical_index proposed >? canonical_index (current_status lead));
    reflexivity.
Qed.

Lemma advance_lead_status_terminal (lead : Lead.t) (proposed reason : string) (st : State) :
  current_status lead ∈ App.TERMINAL_STATUSES ->
  App.advance_lead_status (Some lead) proposed reason st = (Ok (Some lead), st).
Proof.
  intros Ht. unfold App.advance_lead_status. fold (current_status lead).
  rewrite bool_decide_eq_true_2 by exact Ht. reflexivity.
Qed.

Lemma current_status_set (lead : Lead.t) (s : string) :
  s <> "" -> current_status (Lead.set_status (Some s) lead) = s.
Proof.
  intros Hs. unfold current_status. simpl. destruct s; [congruence|reflexivity].
Qed.

(** C1: on a lead whose current status is not terminal, the rule assigns
    the proposed status exactly when its index in the canonical order is
    greater than the index of the current status (-1 for a value outside
    the order, ["Not Contacted"] standing in for an unset status); in every
    other case the lead is left as it was. *)
Theorem advance_lead_status_forward_iff
    (lead : Lead.t) (proposed reason : string) (st : State) :
  current_status lead <> "Converted" ->
  current_status lead <> "Not Interested" ->
  (Lead.status lead = None \/ Lead.status lead = Some "" ->
     current_status lead = "Not Contacted") /\
  (forall s, Lead.status lead = Some s -> s <> "" -> current_status lead = s) /\
  exists lead' out,
    App.advance_lead_status (Some lead) proposed reason st =
      (Ok (Some lead'),
       mkState (working st) (committed st) (stdout st ++ out) (requests st)) /\
    (canonical_index (current_status lead) < canonical_index proposed ->
       lead' = Lead.set_status (Some proposed) lead /\
       Lead.status lead' = Some proposed /\
       out = [App.advance_line lead' (Lead.status lead) proposed reason]) /\
    (~ canonical_index (current_status lead) < canonical_index proposed ->
       lead' = lead /\ out = []) /\
    (out <> [] <-> canonical_index (current_status lead) < canonical_index proposed).
Proof.
  intros Hc Hn. split.
  { intros [Hs | Hs]; unfold current_status; rewrite Hs; reflexivity. }
  split.
  { intros s Hs Hne. unfold current_status. rewrite Hs.
    destruct s; [congruence | reflexivity]. }
  assert (current_status lead ∉ App.TERMINAL_STATUSES) as Hnt.
  { rewrite terminal_statuses. intros [H|H]; congruence. }
  rewrite (advance_lead_status_nonterminal lead proposed reason st Hnt).
  destruct (Z.gtb_spec (canonical_index proposed) (canonical_index (current_status lead)))
    as [Hgt|Hle].
  - eexists _, [_]. split; [reflexivity|].
    repeat split; try (intros; lia); try reflexivity.
    intros _ [=].
  - exists lead, []. split.
    + rewrite app_nil_r. destruct st; reflexivity.
    + repeat split; try (intros; lia); try congruence.
Qed.

Lemma advance_lead_status_forward_iff_witness :
  exists lead' out,
    App.advance_lead_status (Some (sample_lead (Some "Attempted"))) "Connected"
      "call connected" empty_state =
      (Ok (Some lead'), mkState empty_db empty_db ([] ++ out) []) /\
    Lead.status lead' = Some "Connected" /\
    out = ["Pipeline auto-advance: Lead #7 'Acme' Attempted -> Connected (call connected)"].
Proof.
  destruct (advance_lead_status_forward_iff (sample_lead (Some "Attempted"))
              "Connected" "call connected" empty_state)
    as (_ & _ & lead' & out & Hrun & Hfwd & _).
  - vm_compute. discriminate.
  - vm_compute. discriminate.
  - destruct Hfwd as (Hl & Hs & Ho); [vm_compute; reflexivity|].
    exists lead', out. split; [exact Hrun|]. split; [exact Hs|].
    rewrite Ho, Hl. vm_compute. reflexivity.
Defined.

(** C2: a lead whose status is ['Converted'] or ['Not Interested'] is left
    unchanged by the rule, whatever status is proposed and for whatever
    reason; nothing is printed either. *)
Theorem advance_lead_status_terminal_frozen
    (lead : Lead.t) (proposed reason : string) (st : State) :
  Lead.status lead = Some "Converted" \/ Lead.status lead = Some "Not Interested" ->
  App.advance_lead_status (Some lead) proposed reason st = (Ok (Some lead), st).
Proof.
  intros H. apply advance_lead_status_terminal, terminal_statuses.
  unfold current_status. destruct H as [-> | ->]; simpl; auto.
Qed.

Lemma advance_lead_status_terminal_frozen_witness :
  App.advance_lead_status (Some (sample_lead (Some "Converted"))) "Attempted"
    "email logged" empty_state =
  (Ok (Some (sample_lead (Some "Converted"))), empty_state).
Proof.
  apply (advance_lead_status_terminal_frozen (sample_lead (Some "Converted"))).
  left. reflexivity.
Defined.

(** The rule always returns: the guarded [index] calls cannot raise. It
    touches nothing of the request state but the printed lines. *)
Lemma advance_lead_status_returns
    (lead : option Lead.t) (proposed reason : string) (st : State) :
  exists lead' out,
    App.advance_lead_status lead proposed reason st =
    (Ok lead', mkState (working st) (committed st) (stdout st ++ out) (requests st)).
Proof.
  assert (st = mkState (working st) (committed st) (stdout st ++ []) (requests st)) as Hst
    by (rewrite app_nil_r; destruct st; reflexivity).
  destruct lead as [lead|]; [|exists None, []; rewrite <- Hst; reflexivity].
  destruct (decide (current_status lead ∈ App.TERMINAL_STATUSES)) as [Ht|Hnt].
  - exists (Some lead), []. rewrite <- Hst. apply advance_lead_status_terminal. exact Ht.
  - rewrite (advance_lead_status_nonterminal lead proposed reason st Hnt).
    destruct (canonical_index proposed >? canonical_index (current_status lead)).
    + eexists _, [_]. reflexivity.
    + exists (Some lead), []. rewrite <- Hst. reflexivity.
Qed.

(** C8: applying the rule a second time with the same proposed status
    changes nothing: the second call returns the lead that the first call
    left, and prints nothing. *)
Theorem advance_lead_status_idempotent
    (lead : option Lead.t) (proposed reason reason' : string) (st : State) :
  exists lead1 st1,
    App.advance_lead_status lead proposed reason st = (Ok lead1, st1) /\
    App.advance_lead_status lead1 proposed reason' st1 = (Ok lead1, st1).
Proof.
  destruct lead as [lead|]; [|exists None, st; split; reflexivity].
  destruct (decide (current_status lead ∈ App.TERMINAL_STATUSES)) as [Ht|Hnt].
  { exists (Some lead), st.
    split; apply advance_lead_status_terminal; exact Ht. }
  rewrite (advance_lead_status_nonterminal lead proposed reason st Hnt).
  destruct (Z.gtb_spec (canonical_index proposed) (canonical_index (current_status lead)))
    as [Hgt|Hle].
  - eexists _, _. split; [reflexivity|].
    assert (proposed <> "") as Hp.
    { intros ->.
      pose proof (canonical_index_lower_bound (current_status lead)) as Hlb.
      change (canonical_index "") with (-1) in Hgt. lia. }
    set (lead1 := Lead.set_status (Some proposed) lead).
    assert (current_status lead1 = proposed) as Hcur
      by (apply current_status_set; exact Hp).
    destruct (decide (current_status lead1 ∈ App.TERMINAL_STATUSES)) as [Ht1|Hnt1].
    + apply advance_lead_status_terminal. exact Ht1.
    + rewrite (advance_lead_status_nonterminal lead1 proposed reason' _ Hnt1).
      rewrite Hcur.
      destruct (Z.gtb_spec (canonical_index proposed) (canonical_index proposed));
        [lia | reflexivity].
  - exists (Some lead), st. split; [reflexivity|].
    rewrite (advance_lead_status_nonterminal lead proposed reason' st Hnt).
    destruct (Z.gtb_spec (canonical_index proposed) (canonical_index (current_status lead)));
      [lia | reflexivity].
Qed.

(** The indices of the canonical order, and the two sample moves of the
    specification. *)
Example canonical_index_values :
  canonical_index <$> App.PIPELINE_ORDER = [0; 1; 2; 3; 4; 5; 6] /\
  canonical_index "Not Interested" = -1 /\
  canonical_index "" = -1.
Proof. vm_compute. repeat split. Qed.

Example advance_backward_is_refused :
  App.advance_lead_status (Some (sample_lead (Some "Connected"))) "Attempted" "email logged"
    empty_state =
  (Ok (Some (sample_lead (Some "Connected"))), empty_state).
Proof. vm_compute. reflexivity. Qed.

Example advance_forward_is_taken :
  App.advance_lead_status (Some (sample_lead (Some "Attempted"))) "Connected" "meeting logged"
    empty_state =
  (Ok (Some (sample_lead (Some "Connected"))),
   mkState empty_db empty_db
     ["Pipeline auto-advance: Lead #7 'Acme' Attempted -> Connected (meeting logged)"] []).
Proof. vm_compute. reflexivity. Qed.

Example advance_unknown_status :
  App.advance_lead_status (Some (sample_lead (Some "Archived"))) "Not Contacted" "import"
    empty_state =
  (Ok (Some (sample_lead (Some "Not Contacted"))),
   mkState empty_db empty_db
     ["Pipeline auto-advance: Lead #7 'Acme' Archived -> Not Contacted (import)"] []).
Proof. vm_compute. reflexivity. Qed.

(* ===================================================================== *)
(** ** Properties of the email categorizer                               *)
(* ===================================================================== *)

Lemma prefix_app (p s : string) :
  String.prefix p s = true <-> exists rest, s = p +:+ rest.
Proof.
  revert s. induction p as [|a p IH]; intros s.
  - split; [intros _; exists s; reflexivity | intros _; destruct s; reflexivity].
  - destruct s as [|b s]; simpl.
    + split; [discriminate | intros [rest [=]]].
    + destruct (Ascii.ascii_dec a b) as [->|Hne].
      * rewrite IH. split; intros [rest H]; exists rest; [rewrite H; reflexivity|].
        injection H as H. exact H.
      * split; [discriminate|]. intros [rest [= ? ?]]. congruence.
Qed.

(** [needle in hay] holds exactly when [hay] has [needle] as a contiguous
    part. *)
Lemma str_in_app (needle hay : string) :
  Py.str_in needle hay = true <->
  exists before after, hay = before +:+ needle +:+ after.
Proof.
  induction hay as [|c hay IH].
  - change (Py.str_in needle "") with (String.prefix needle "" || false)%bool.
    rewrite orb_false_r, prefix_app. split.
    + intros [rest H]. exists "", rest. exact H.
    + intros (before & after & H). destruct before as [|b before]; simpl in H.
      * exists after. exact H.
      * discriminate.
  - change (Py.str_in needle (String c hay))
      with (String.prefix needle (String c hay) || Py.str_in needle hay)%bool.
    rewrite orb_true_iff, prefix_app, IH. split.
    + intros [[rest H] | (before & after & H)].
      * exists "", rest. exact H.
      * exists (String c before), after. simpl. rewrite H. reflexivity.
    + intros (before & after & H). destruct before as [|b before]; simpl in H.
      * left. exists after. exact H.
      * right. injection H as _ H. exists before, after. exact H.
Qed.

Lemma keyword_loop_occurs (keywords : list string) (s : string) :
  forallb (fun k => String.eqb (Py.lower k) k) keywords = true ->
  MicrosoftIntegration.keyword_loop keywords (Py.lower s) = true <->
  some_keyword_occurs keywords s.
Proof.
  unfold some_keyword_occurs, occurs_in.
  induction keywords as [|k rest IH]; simpl; intros Hlow.
  - split; [discriminate|]. intros (k & Hin & _). inversion Hin.
  - apply andb_true_iff in Hlow as [Hk Hrest]. apply String.eqb_eq in Hk.
    specialize (IH Hrest).
    destruct (Py.str_in k (Py.lower s)) eqn:E.
    + split; [|reflexivity]. intros _. exists k. split; [left|].
      rewrite Hk. apply str_in_app. exact E.
    + rewrite IH. split.
      * intros (k' & Hin & Hocc). exists k'. split; [right; exact Hin | exact Hocc].
      * intros (k' & Hin & Hocc). apply elem_of_cons in Hin as [->|Hin].
        -- rewrite Hk in Hocc. apply str_in_app in Hocc. congruence.
        -- exists k'. split; assumption.
Qed.

(** The outer loop returns the first category, in table order, one of whose
    keywords occurs in the subject. *)
Lemma category_loop_first (items : list (string * list string)) (s : string) (c : string) :
  lowercase_table items = true ->
  MicrosoftIntegration.category_loop items (Py.lower s) = Some c <->
  exists earlier keywords later,
    items = earlier ++ (c, keywords) :: later /\
    some_keyword_occurs keywords s /\
    (forall c' keywords', (c', keywords') ∈ earlier -> ~ some_keyword_occurs keywords' s).
Proof.
  induction items as [|[c0 kws0] rest IH]; simpl; intros Hlow.
  - split; [discriminate|]. intros (earlier & kws & later & H & _).
    destruct earlier; discriminate.
  - apply andb_true_iff in Hlow as [Hk Hrest]. simpl in Hk.
    pose proof (keyword_loop_occurs kws0 s Hk) as Hloop.
    specialize (IH Hrest).
    destruct (MicrosoftIntegration.keyword_loop kws0 (Py.lower s)) eqn:E.
    + assert (some_keyword_occurs kws0 s) as Hocc by (apply Hloop; reflexivity).
      split.
      * intros [= <-]. exists [], kws0, rest. split; [reflexivity|].
        split; [exact Hocc|]. intros c' k' Hin. inversion Hin.
      * intros (earlier & kws & later & H & Hk' & Hnone).
        destruct earlier as [|[c1 k1] earlier]; simpl in H.
        -- injection H as -> _ _. reflexivity.
        -- injection H as -> -> _. exfalso. apply (Hnone c1 k1); [left | exact Hocc].
    + assert (~ some_keyword_occurs kws0 s) as Hnocc.
      { intros H. apply Hloop in H. discriminate. }
      rewrite IH. split.
      * intros (earlier & kws & later & -> & Hk' & Hnone).
        exists ((c0, kws0) :: earlier), kws, later. split; [reflexivity|].
        split; [exact Hk'|]. intros c' k' Hin.
        apply elem_of_cons in Hin as [[= -> ->]|Hin]; [exact Hnocc | eapply Hnone, Hin].
      * intros (earlier & kws & later & H & Hk' & Hnone).
        destruct earlier as [|[c1 k1] earlier]; simpl in H.
        -- injection H as -> -> _. contradiction.
        -- injection H as -> -> ->. exists earlier, kws, later.
           split; [reflexivity|]. split; [exact Hk'|].
           intros c' k' Hin. apply (Hnone c' k'). right. exact Hin.
Qed.

Lemma category_loop_none (items : list (string * list string)) (s : string) :
  lowercase_table items = true ->
  MicrosoftIntegration.category_loop items (Py.lower s) = None <->
  (forall c keywords, (c, keywords) ∈ items -> ~ some_keyword_occurs keywords s).
Proof.
  induction items as [|[c0 kws0] rest IH]; simpl; intros Hlow.
  - split; [|reflexivity]. intros _ c k Hin. inversion Hin.
  - apply andb_true_iff in Hlow as [Hk Hrest]. simpl in Hk.
    pose proof (keyword_loop_occurs kws0 s Hk) as Hloop.
    specialize (IH Hrest).
    destruct (MicrosoftIntegration.keyword_loop kws0 (Py.lower s)) eqn:E.
    + split; [discriminate|]. intros H. exfalso.
      apply (H c0 kws0); [left | apply Hloop; reflexivity].
    + rewrite IH. split.
      * intros H c k Hin. apply elem_of_cons in Hin as [[= -> ->]|Hin].
        -- intros Hocc. apply Hloop in Hocc. discriminate.
        -- apply (H c k Hin).
      * intros H c k Hin. apply (H c k). right. exact Hin.
Qed.

Lemma categorize_email_str (s : string) :
  MicrosoftIntegration.categorize_email (JStr s) =
  Ok (MicrosoftIntegration.category_loop MicrosoftIntegration.OUTREACH_CATEGORIES (Py.lower s)).
Proof.
  unfold MicrosoftIntegration.categorize_email. simpl.
  destruct s as [|a s]; reflexivity.
Qed.

Lemma outreach_categories_lowercase :
  lowercase_table MicrosoftIntegration.OUTREACH_CATEGORIES = true.
Proof. vm_compute. reflexivity. Qed.

(** C4: [categorize_email] lower-cases the subject and returns the first
    category, in the order introduction, follow_up, meeting_date,
    contract_deal, deal_closed, one of whose keywords occurs in the subject
    without regard to case; it returns [None] when the subject is empty or
    no keyword of any category occurs in it. The four subjects of the
    specification are categorized as it says. *)
Theorem categorize_email_first_match :
  MicrosoftIntegration.OUTREACH_CATEGORIES.*1 =
    ["introduction"; "follow_up"; "meeting_date"; "contract_deal"; "deal_closed"] /\
  (forall (subject category : string),
     MicrosoftIntegration.categorize_email (JStr subject) = Ok (Some category) <->
     exists earlier keywords later,
       MicrosoftIntegration.OUTREACH_CATEGORIES = earlier ++ (category, keywords) :: later /\
       some_keyword_occurs keywords subject /\
       (forall c' keywords', (c', keywords') ∈ earlier ->
          ~ some_keyword_occurs keywords' subject)) /\
  (forall (subject : string),
     MicrosoftIntegration.categorize_email (JStr subject) = Ok None <->
     subject = "" \/
     (forall c keywords, (c, keywords) ∈ MicrosoftIntegration.OUTREACH_CATEGORIES ->
        ~ some_keyword_occurs keywords subject)) /\
  MicrosoftIntegration.categorize_email (JStr "Quick follow up on our call") =
    Ok (Some "follow_up") /\
  MicrosoftIntegration.categorize_email (JStr "Re: Pricing for your project") =
    Ok (Some "contract_deal") /\
  MicrosoftIntegration.categorize_email (JStr "") = Ok None /\
  MicrosoftIntegration.categorize_email (JStr "Happy Monday!") = Ok None.
Proof.
  split; [reflexivity|].
  split; [|split; [|repeat split; vm_compute; reflexivity]].
  - intros subject category. rewrite categorize_email_str.
    rewrite <- (category_loop_first _ subject category outreach_categories_lowercase).
    split; [intros [= H]; exact H | intros ->; reflexivity].
  - intros subject. rewrite categorize_email_str.
    rewrite <- (category_loop_none _ subject outreach_categories_lowercase).
    split.
    + intros [= H]. right. exact H.
    + intros [-> | H]; [reflexivity | rewrite H; reflexivity].
Qed.

(** C9: the two core functions do not raise on missing input: the rule
    returns at once, changing and printing nothing, when there is no lead,
    and never raises for a lead either; the categorizer returns [None] for
    a subject that is [None] or empty, and never raises for a string. *)
Theorem core_functions_do_not_raise :
  (forall (proposed reason : string) (st : State),
     App.advance_lead_status None proposed reason st = (Ok None, st)) /\
  (forall (lead : option Lead.t) (proposed reason : string) (st : State),
     exists lead' st', App.advance_lead_status lead proposed reason st = (Ok lead', st')) /\
  MicrosoftIntegration.categorize_email JNull = Ok None /\
  MicrosoftIntegration.categorize_email (JStr "") = Ok None /\
  (forall subject : string,
     exists category, MicrosoftIntegration.categorize_email (JStr subject) = Ok category).
Proof.
  split; [reflexivity|]. split; [|split; [reflexivity|split; [reflexivity|]]].
  - intros lead proposed reason st.
    destruct (advance_lead_status_returns lead proposed reason st) as (l & out & H).
    eexists l, _. exact H.
  - intros subject. rewrite categorize_email_str. eexists. reflexivity.
Qed.

(* ===================================================================== *)
(** ** Properties of the reply matcher                                   *)
(* ===================================================================== *)

Lemma truthy_str_nonempty (s : string) : Py.truthy_str (Some s) = true <-> s <> "".
Proof. destruct s; simpl; split; congruence. Qed.

Lemma startswith_re (s : string) :
  Py.startswith (Py.lower s) "re:" = true <-> starts_with_re s.
Proof. unfold Py.startswith, starts_with_re. apply prefix_app. Qed.

Lemma lower_idempotent (s : string) : Py.lower (Py.lower s) = Py.lower s.
Proof.
  induction s as [|c s IH]; simpl; [reflexivity|]. rewrite IH. f_equal.
  destruct c as [[] [] [] [] [] [] [] []]; reflexivity.
Qed.

Lemma lower_empty (s : string) : Py.lower s = "" <-> s = "".
Proof. destruct s; simpl; split; congruence. Qed.

(** What [is_reply] computes on a message whose subject and sender address
    are strings. *)
Lemma is_reply_well_formed (sent_email : GeneratedEmail.t) (msg : json)
    (sender subject : string) :
  message_subject msg = Ok (JStr subject) ->
  sender_address msg = Ok (JStr sender) ->
  App.is_reply sent_email msg =
  Ok (Py.truthy_str (Some (Py.lower (recipient_address sent_email))) &&
      String.eqb (Py.lower sender) (Py.lower (recipient_address sent_email)) &&
      Py.startswith (Py.lower subject) "re:" &&
      Py.str_in (Py.lower (sent_subject sent_email)) (Py.lower subject))%bool.
Proof.
  unfold message_subject, sender_address, App.is_reply. intros Hs Ha.
  rewrite Hs. cbn [mbind result_bind].
  destruct (Py.get msg "from" (JObj ∅)) as [sender_obj|]; [|discriminate].
  cbn [mbind result_bind] in *.
  destruct (Py.get sender_obj "emailAddress" (JObj ∅)) as [address_obj|]; [|discriminate].
  cbn [mbind result_bind] in *. rewrite Ha.
  cbn [mbind result_bind Py.lower_of].
  fold (recipient_address sent_email) (sent_subject sent_email).
  destruct (Py.truthy_str (Some (Py.lower (recipient_address sent_email)))); [|reflexivity].
  destruct (String.eqb (Py.lower sender) (Py.lower (recipient_address sent_email)));
    [|reflexivity].
  destruct (Py.startswith (Py.lower subject) "re:"); reflexivity.
Qed.

(** C5, as the code has it: an inbox message is treated as a reply to a
    sent email exactly when the sent email has a recipient address, the
    sender address of the message equals it without regard to case, the
    subject of the message starts with "re:" without regard to case, and
    the subject of the sent email is contained in it without regard to
    case. The sample pair of the specification matches; the same message
    from another sender, or without the "re:" prefix, does not. *)
Theorem is_reply_rule (sent_email : GeneratedEmail.t) (msg : json)
    (sender subject : string) :
  message_subject msg = Ok (JStr subject) ->
  sender_address msg = Ok (JStr sender) ->
  (App.is_reply sent_email msg = Ok true <->
     recipient_address sent_email <> "" /\ stated_reply_rule sent_email sender subject) /\
  (exists b, App.is_reply sent_email msg = Ok b) /\
  App.is_reply acme_email (inbox_message "a@x.com" "RE: Introduction - Acme" no_fields) = Ok true /\
  App.is_reply acme_email (inbox_message "b@x.com" "RE: Introduction - Acme" no_fields) = Ok false /\
  App.is_reply acme_email (inbox_message "a@x.com" "Introduction - Acme" no_fields) = Ok false.
Proof.
  intros Hs Ha. rewrite (is_reply_well_formed sent_email msg sender subject Hs Ha).
  split; [|split; [eexists; reflexivity | repeat split; vm_compute; reflexivity]].
  unfold stated_reply_rule, same_address.
  rewrite <- startswith_re. unfold occurs_in. rewrite <- str_in_app.
  rewrite <- (lower_empty (recipient_address sent_email)), <- truthy_str_nonempty.
  rewrite <- String.eqb_eq.
  split.
  - intros [= H]. rewrite !andb_true_iff in H. tauto.
  - intros (H1 & H2 & H3 & H4). rewrite H1, H2, H3, H4. reflexivity.
Qed.

Lemma is_reply_rule_witness :
  App.is_reply acme_email acme_reply = Ok true <->
  recipient_address acme_email <> "" /\
  stated_reply_rule acme_email "A@X.com" "Re: introduction - ACME (thanks)".
Proof.
  exact (proj1 (is_reply_rule acme_email
                  acme_reply
                  "A@X.com" "Re: introduction - ACME (thanks)"
                  ltac:(vm_compute; reflexivity) ltac:(vm_compute; reflexivity))).
Defined.

(** C5 as stated fails on a sent email without a recipient address: the
    three stated conditions hold of a message that carries no sender
    address, and the code does not treat it as a reply. *)
Lemma stated_reply_rule_counterexample :
  let sent_email := sent_email_to 4 None (Some "") (Some "Hello") in
  let msg := inbox_message "" "Re: Hello" no_fields in
  message_subject msg = Ok (JStr "Re: Hello") /\
  sender_address msg = Ok (JStr "") /\
  stated_reply_rule sent_email "" "Re: Hello" /\
  App.is_reply sent_email msg = Ok false /\
  ~ (App.is_reply sent_email msg = Ok true <-> stated_reply_rule sent_email "" "Re: Hello").
Proof.
  assert (stated_reply_rule (sent_email_to 4 None (Some "") (Some "Hello")) "" "Re: Hello")
    as Hrule.
  { split; [reflexivity|]. split; [exists " hello"; reflexivity|].
    exists "re: ", "". reflexivity. }
  cbv zeta.
  split; [vm_compute; reflexivity|]. split; [vm_compute; reflexivity|].
  split; [exact Hrule|]. split; [vm_compute; reflexivity|].
  intros [_ H]. specialize (H Hrule). vm_compute in H. discriminate.
Qed.

(* ===================================================================== *)
(** ** Further properties of the pipeline advancement rule               *)
(* ===================================================================== *)

(** One invocation either leaves the lead as it is or assigns the proposed
    status, and then the lead was not terminal and the proposal sits
    further along the canonical order. *)
Lemma advance_lead_status_cases (lead : Lead.t) (proposed reason : string) (st : State) :
  exists lead' out,
    App.advance_lead_status (Some lead) proposed reason st =
      (Ok (Some lead'),
       mkState (working st) (committed st) (stdout st ++ out) (requests st)) /\
    (lead' = lead \/
     (lead' = Lead.set_status (Some proposed) lead /\
      (current_status lead ∉ App.TERMINAL_STATUSES) /\
      canonical_index (current_status lead) < canonical_index proposed)).
Proof.
  assert (st = mkState (working st) (committed st) (stdout st ++ []) (requests st)) as Hst
    by (rewrite app_nil_r; destruct st; reflexivity).
  destruct (decide (current_status lead ∈ App.TERMINAL_STATUSES)) as [Ht|Hnt].
  - exists lead, []. rewrite <- Hst. split; [|left; reflexivity].
    apply advance_lead_status_terminal. exact Ht.
  - rewrite (advance_lead_status_nonterminal lead proposed reason st Hnt).
    destruct (Z.gtb_spec (canonical_index proposed) (canonical_index (current_status lead)))
      as [Hgt|Hle].
    + eexists _, [_]. split; [reflexivity|]. right. repeat split; [exact Hnt | lia].
    + exists lead, []. rewrite <- Hst. split; [reflexivity | left; reflexivity].
Qed.

Lemma proposed_nonempty (s proposed : string) :
  canonical_index s < canonical_index proposed -> proposed <> "".
Proof.
  intros Hlt ->. pose proof (canonical_index_lower_bound s) as Hlb.
  change (canonical_index "") with (-1) in Hlt. lia.
Qed.

(** X1: whatever sequence of proposals the rule is invoked with, the lead
    never moves backward: the index of its current status in the canonical
    order does not decrease, a terminal lead stays exactly as it is, and
    no column other than the status is touched. No invocation raises. *)
Theorem advance_each_never_backward
    (lead : Lead.t) (proposals : list (string * string)) (st : State) :
  exists lead' st',
    advance_each (Some lead) proposals st = (Ok (Some lead'), st') /\
    canonical_index (current_status lead) <= canonical_index (current_status lead') /\
    same_but_status lead lead' /\
    (current_status lead ∈ App.TERMINAL_STATUSES -> lead' = lead).
Proof.
  revert lead st. induction proposals as [|[p reason] rest IH]; intros lead st.
  - exists lead, st. split; [reflexivity|]. split; [lia|].
    split; [repeat split | reflexivity].
  - cbn [advance_each]. run_m.
    destruct (advance_lead_status_cases lead p reason st) as (l1 & out & Hrun & Hcases).
    rewrite Hrun.
    destruct (IH l1 (mkState (working st) (committed st) (stdout st ++ out) (requests st)))
      as (l2 & st2 & Hrest & Hle & Hsame & Hterm).
    exists l2, st2. split; [exact Hrest|].
    destruct Hcases as [-> | (-> & Hnt & Hlt)].
    + split; [exact Hle|]. split; [exact Hsame | exact Hterm].
    + rewrite (current_status_set lead p (proposed_nonempty _ _ Hlt)) in Hle.
      split; [lia|]. split; [|intros Ht; contradiction].
      destruct Hsame as (H1 & H2 & H3 & H4 & H5). repeat split; assumption.
Qed.

(** X2: the rule only ever assigns a proposed status that belongs to the
    canonical order: after any sequence of invocations the status is the
    original one or one of the proposals, and that proposal is in
    PIPELINE_ORDER. In particular the rule never makes a lead
    'Not Interested'. *)
Theorem advance_each_assigns_pipeline_statuses
    (lead : Lead.t) (proposals : list (string * string)) (st : State) :
  exists lead' st',
    advance_each (Some lead) proposals st = (Ok (Some lead'), st') /\
    (Lead.status lead' = Lead.status lead \/
     exists proposed reason,
       (proposed, reason) ∈ proposals /\
       proposed ∈ App.PIPELINE_ORDER /\
       Lead.status lead' = Some proposed) /\
    (Lead.status lead <> Some "Not Interested" ->
     Lead.status lead' <> Some "Not Interested").
Proof.
  assert (exists lead' st',
    advance_each (Some lead) proposals st = (Ok (Some lead'), st') /\
    (Lead.status lead' = Lead.status lead \/
     exists proposed reason,
       (proposed, reason) ∈ proposals /\
       proposed ∈ App.PIPELINE_ORDER /\
       Lead.status lead' = Some proposed)) as (lead' & st' & Hrun & Hcases).
  { revert lead st. induction proposals as [|[p reason] rest IH]; intros lead st.
    - exists lead, st. split; [reflexivity | left; reflexivity].
    - cbn [advance_each]. run_m.
      destruct (advance_lead_status_cases lead p reason st) as (l1 & out & Hrun & Hcases).
      rewrite Hrun.
      destruct (IH l1 (mkState (working st) (committed st) (stdout st ++ out) (requests st)))
        as (l2 & st2 & Hrest & Hfinal).
      exists l2, st2. split; [exact Hrest|].
      destruct Hfinal as [Hsame | (q & r & Hin & Hmem & Hq)].
      + destruct Hcases as [-> | (-> & _ & Hlt)]; [left; exact Hsame|].
        right. exists p, reason. split; [left|]. split; [|exact Hsame].
        apply canonical_index_member.
        pose proof (canonical_index_lower_bound (current_status lead)). lia.
      + right. exists q, r. split; [right; exact Hin|]. split; assumption. }
  exists lead', st'. split; [exact Hrun|]. split; [exact Hcases|].
  intros Hne Heq. destruct Hcases as [Hsame | (q & r & _ & Hmem & Hq)].
  - congruence.
  - rewrite Hq in Heq. injection Heq as ->. vm_compute in Hmem.
    repeat (apply elem_of_cons in Hmem as [Hmem|Hmem]; [discriminate|]).
    inversion Hmem.
Qed.

Lemma canonical_index_upper_bound (s : string) : canonical_index s <= 6.
Proof.
  unfold canonical_index.
  destruct (position App.PIPELINE_ORDER s) as [i|] eqn:E; [|lia].
  apply position_lookup, lookup_lt_Some in E. cbn in E. lia.
Qed.

Lemma canonical_index_lookup (s : string) :
  -1 < canonical_index s -> App.PIPELINE_ORDER !! Z.to_nat (canonical_index s) = Some s.
Proof.
  unfold canonical_index.
  destruct (position App.PIPELINE_ORDER s) as [i|] eqn:E; [|lia].
  intros _. rewrite Nat2Z.id. apply position_lookup. exact E.
Qed.

Lemma furthest_index_cons (start : Z) (p : string) (rest : list string) :
  furthest_index start (p :: rest) = Z.max (canonical_index p) (furthest_index start rest).
Proof. reflexivity. Qed.

Lemma furthest_index_max (start : Z) (proposed : list string) :
  -1 <= start ->
  furthest_index start proposed = Z.max start (furthest_index (-1) proposed).
Proof.
  intros Hs. induction proposed as [|p rest IH]; cbn [furthest_index foldr].
  - lia.
  - fold (furthest_index start rest). fold (furthest_index (-1) rest). lia.
Qed.

Lemma furthest_index_upper_bound (start : Z) (proposed : list string) :
  start <= 6 -> furthest_index start proposed <= 6.
Proof.
  intros Hs. induction proposed as [|p rest IH]; cbn [furthest_index foldr]; [exact Hs|].
  fold (furthest_index start rest). pose proof (canonical_index_upper_bound p). lia.
Qed.

Lemma furthest_index_permutation (start : Z) (ps qs : list string) :
  ps ≡ₚ qs -> furthest_index start ps = furthest_index start qs.
Proof.
  intros Hperm. unfold furthest_index. apply (foldr_permutation (=) _ start).
  - intros j1 a1 j2 a2 b _ _ _. lia.
  - exact Hperm.
Qed.

Lemma set_status_twice (a b : option string) (lead : Lead.t) :
  Lead.set_status b (Lead.set_status a lead) = Lead.set_status b lead.
Proof. reflexivity. Qed.

Lemma advance_each_terminal (lead : Lead.t) (proposals : list (string * string)) (st : State) :
  current_status lead ∈ App.TERMINAL_STATUSES ->
  advance_each (Some lead) proposals st = (Ok (Some lead), st).
Proof.
  intros Ht. revert st. induction proposals as [|[p reason] rest IH]; intros st;
    [reflexivity|].
  cbn [advance_each]. run_m. rewrite advance_lead_status_terminal by exact Ht. apply IH.
Qed.

(** After any sequence of invocations the lead is the one with the status
    furthest along, whatever the order of the invocations. *)
Lemma advance_each_closed_form (lead : Lead.t) (proposals : list (string * string))
    (st : State) :
  exists st', advance_each (Some lead) proposals st = (Ok (Some (furthest lead proposals.*1)), st').
Proof.
  revert lead st. induction proposals as [|[p reason] rest IH]; intros lead st.
  - exists st. unfold furthest. cbn [fmap list_fmap furthest_index foldr].
    rewrite Z.gtb_ltb, Z.ltb_irrefl. destruct (bool_decide _); reflexivity.
  - destruct (decide (current_status lead ∈ App.TERMINAL_STATUSES)) as [Ht|Hnt].
    { exists st. rewrite advance_each_terminal by exact Ht. unfold furthest.
      rewrite bool_decide_eq_true_2 by exact Ht. reflexivity. }
    cbn [advance_each]. run_m.
    rewrite (advance_lead_status_nonterminal lead p reason st Hnt).
    pose proof (canonical_index_lower_bound (current_status lead)) as Hlow.
    pose proof (canonical_index_upper_bound p) as Hup.
    assert (furthest lead ((p, reason) :: rest).*1 =
            furthest (if canonical_index p >? canonical_index (current_status lead)
                      then Lead.set_status (Some p) lead else lead) rest.*1) as ->.
    { rewrite fmap_cons. cbn [fst]. set (R := rest.*1). unfold furthest at 1.
      rewrite bool_decide_eq_false_2 by exact Hnt.
      rewrite furthest_index_cons.
      set (cur := canonical_index (current_status lead)) in *.
      destruct (Z.gtb_spec (canonical_index p) cur) as [Hgt|Hle].
      - assert (p <> "") as Hp by (apply (proposed_nonempty (current_status lead)); exact Hgt).
        unfold furthest. rewrite (current_status_set lead p Hp).
        rewrite (furthest_index_max cur R), (furthest_index_max (canonical_index p) R) by lia.
        pose proof (furthest_index_upper_bound (-1) R ltac:(lia)) as HR.
        destruct (decide (p ∈ App.TERMINAL_STATUSES)) as [Hpt|Hpnt].
        + rewrite bool_decide_eq_true_2 by exact Hpt.
          apply terminal_statuses in Hpt as [-> | ->];
            [change (canonical_index "Not Interested") with (-1) in Hgt; lia|].
          change (canonical_index "Converted") with 6 in *.
          replace (Z.max 6 (Z.max cur (furthest_index (-1) R))) with 6 by lia.
          destruct (Z.gtb_spec 6 cur); [reflexivity | lia].
        + rewrite bool_decide_eq_false_2 by exact Hpnt.
          replace (Z.max (canonical_index p) (Z.max cur (furthest_index (-1) R)))
            with (Z.max (canonical_index p) (furthest_index (-1) R)) by lia.
          destruct (Z.gtb_spec (Z.max (canonical_index p) (furthest_index (-1) R)) cur);
            [|lia].
          destruct (Z.gtb_spec (Z.max (canonical_index p) (furthest_index (-1) R))
                      (canonical_index p)) as [Hmore|Hsame].
          * rewrite set_status_twice. reflexivity.
          * replace (Z.max (canonical_index p) (furthest_index (-1) R))
              with (canonical_index p) by lia.
            rewrite canonical_index_lookup by lia. reflexivity.
      - unfold furthest. fold cur. rewrite bool_decide_eq_false_2 by exact Hnt.
        pose proof (furthest_index_max cur R Hlow).
        replace (Z.max (canonical_index p) (furthest_index cur R))
          with (furthest_index cur R) by lia.
        reflexivity. }
    destruct (canonical_index p >? canonical_index (current_status lead)); apply IH.
Qed.

(** X3: after any sequence of invocations a lead that was not terminal
    has the status that is furthest along the canonical order among its
    current status and the proposed ones, and a terminal lead is as it
    was; so the outcome does not depend on the order of the invocations:
    the same proposals in any other order, with any reasons, leave the
    same lead. *)
Theorem advance_each_order_irrelevant
    (lead : Lead.t) (proposals : list (string * string)) (st : State) :
  exists st',
    advance_each (Some lead) proposals st = (Ok (Some (furthest lead proposals.*1)), st') /\
    (current_status lead ∉ App.TERMINAL_STATUSES ->
     canonical_index (current_status (furthest lead proposals.*1)) =
     furthest_index (canonical_index (current_status lead)) proposals.*1) /\
    (forall (others : list (string * string)) (st2 : State),
       others.*1 ≡ₚ proposals.*1 ->
       exists st2',
         advance_each (Some lead) others st2 =
         (Ok (Some (furthest lead proposals.*1)), st2')).
Proof.
  destruct (advance_each_closed_form lead proposals st) as [st' Hrun].
  exists st'. split; [exact Hrun|]. split.
  - intros Hnt. unfold furthest. rewrite bool_decide_eq_false_2 by exact Hnt.
    set (cur := canonical_index (current_status lead)).
    destruct (Z.gtb_spec (furthest_index cur proposals.*1) cur) as [Hgt|Hle].
    + pose proof (canonical_index_lower_bound (current_status lead)) as Hlow.
      pose proof (canonical_index_upper_bound (current_status lead)) as Hup.
      pose proof (furthest_index_upper_bound cur proposals.*1 Hup) as Hm.
      fold cur in Hlow.
      destruct (App.PIPELINE_ORDER !! Z.to_nat (furthest_index cur proposals.*1))
        as [s|] eqn:Hs.
      * assert (s <> "") as Hne.
        { intros ->. apply list_elem_of_lookup_2 in Hs. vm_compute in Hs.
          repeat (apply elem_of_cons in Hs as [Hs|Hs]; [discriminate|]). inversion Hs. }
        rewrite (current_status_set lead s Hne).
        assert (position App.PIPELINE_ORDER s =
                Some (Z.to_nat (furthest_index cur proposals.*1))) as Hpos.
        { revert Hs. generalize (furthest_index cur proposals.*1) Hgt Hm. intros m Hm1 Hm2.
          assert (exists n, m = Z.of_nat n /\ (n < 7)%nat) as (n & -> & Hn)
            by (exists (Z.to_nat m); lia).
          rewrite Nat2Z.id.
          do 7 (destruct n as [|n]; [intros [= <-]; reflexivity|]). lia. }
        unfold canonical_index. rewrite Hpos. lia.
      * apply lookup_ge_None in Hs. cbn in Hs. lia.
    + pose proof (furthest_index_max cur proposals.*1
                    (canonical_index_lower_bound (current_status lead))). fold cur. lia.
  - intros others st2 Hperm.
    destruct (advance_each_closed_form lead others st2) as [st2' Hrun2].
    exists st2'. rewrite Hrun2. do 3 f_equal. unfold furthest.
    rewrite (furthest_index_permutation _ _ _ Hperm). reflexivity.
Qed.

Lemma advance_each_order_irrelevant_witness :
  exists st2',
    advance_each (Some (sample_lead (Some "Not Contacted")))
      [("Attempted", "email logged"); ("Connected", "call connected")] empty_state =
    (Ok (Some (furthest (sample_lead (Some "Not Contacted")) ["Connected"; "Attempted"])),
     st2').
Proof.
  destruct (advance_each_order_irrelevant (sample_lead (Some "Not Contacted"))
              [("Connected", "meeting logged"); ("Attempted", "email sent")] empty_state)
    as (st' & _ & _ & Hothers).
  apply (Hothers [("Attempted", "email logged"); ("Connected", "call connected")]
           empty_state).
  apply Permutation_swap.
Defined.

(* ===================================================================== *)
(** ** Further properties of the email categorizer                       *)
(* ===================================================================== *)

Lemma keyword_loop_monotone (keywords : list string) (hay hay' : string) :
  (forall k, Py.str_in k hay = true -> Py.str_in k hay' = true) ->
  MicrosoftIntegration.keyword_loop keywords hay = true ->
  MicrosoftIntegration.keyword_loop keywords hay' = true.
Proof.
  intros Hmono. induction keywords as [|k rest IH]; simpl; [discriminate|].
  destruct (Py.str_in k hay) eqn:E.
  - intros _. rewrite (Hmono k E). reflexivity.
  - intros H. destruct (Py.str_in k hay'); [reflexivity | apply IH, H].
Qed.

Lemma category_loop_member (items : list (string * list string)) (hay c : string) :
  MicrosoftIntegration.category_loop items hay = Some c -> c ∈ items.*1.
Proof.
  induction items as [|[c1 k1] l IH]; simpl; [discriminate|].
  destruct (MicrosoftIntegration.keyword_loop k1 hay);
    [intros [= ->]; left | intros H; right; apply IH, H].
Qed.

(** A dict has each key once; under that, the category found for a text
    that contains every keyword occurrence of another is the same or an
    earlier one. *)
Lemma category_loop_monotone (items : list (string * list string)) (hay hay' c : string) :
  NoDup items.*1 ->
  (forall k, Py.str_in k hay = true -> Py.str_in k hay' = true) ->
  MicrosoftIntegration.category_loop items hay = Some c ->
  exists c' i j,
    MicrosoftIntegration.category_loop items hay' = Some c' /\
    position items.*1 c' = Some i /\ position items.*1 c = Some j /\ (i <= j)%nat.
Proof.
  intros Hnodup Hmono. induction items as [|[c0 kws0] rest IH]; [discriminate|].
  rewrite fmap_cons in Hnodup |- *. cbn [fst] in *.
  apply NoDup_cons in Hnodup as [Hfresh Hnodup]. cbn [MicrosoftIntegration.category_loop position].
  destruct (MicrosoftIntegration.keyword_loop kws0 hay) eqn:E.
  - intros [= <-]. rewrite (keyword_loop_monotone kws0 hay hay' Hmono E).
    exists c0, 0%nat, 0%nat. rewrite decide_True by reflexivity. repeat split. lia.
  - intros H. destruct (IH Hnodup H) as (c' & i & j & Hrun & Hi & Hj & Hle).
    assert (c0 <> c) as Hc.
    { intros ->. apply Hfresh. eapply category_loop_member, H. }
    rewrite (decide_False (P := (c0 = c))) by exact Hc. rewrite Hj.
    destruct (MicrosoftIntegration.keyword_loop kws0 hay').
    + exists c0, 0%nat, (S j). rewrite decide_True by reflexivity.
      repeat split. lia.
    + assert (c0 <> c') as Hc'.
      { intros ->. apply Hfresh. eapply category_loop_member, Hrun. }
      exists c', (S i), (S j). rewrite decide_False by exact Hc'. rewrite Hi.
      repeat split; [exact Hrun | lia].
Qed.

Lemma outreach_categories_nodup : NoDup MicrosoftIntegration.OUTREACH_CATEGORIES.*1.
Proof. apply (bool_decide_unpack _). vm_compute. exact I. Qed.

Lemma string_app_assoc (a b c : string) : (a +:+ b) +:+ c = a +:+ b +:+ c.
Proof.
  induction a as [|x a IH]; [reflexivity|].
  change (String x ((a +:+ b) +:+ c) = String x (a +:+ b +:+ c)).
  rewrite IH. reflexivity.
Qed.

Lemma str_in_occurs (k s t : string) :
  occurs_in s t -> Py.str_in k (Py.lower s) = true -> Py.str_in k (Py.lower t) = true.
Proof.
  intros (before & after & Ht) Hk. apply str_in_app in Hk as (b & a & Hs).
  apply str_in_app. rewrite Ht, Hs. exists (before +:+ b), (a +:+ after).
  rewrite !string_app_assoc. reflexivity.
Qed.

(** X4: text added around a subject never loses its category: if a
    subject is categorized and occurs, without regard to case, inside a
    longer subject (a "Re: " or "Fwd: " in front, a suffix behind), the
    longer subject is categorized too, with the same category or with one
    that stands earlier in the table. *)
Theorem categorize_email_extended (subject longer category : string) :
  MicrosoftIntegration.categorize_email (JStr subject) = Ok (Some category) ->
  occurs_in subject longer ->
  exists category' i j,
    MicrosoftIntegration.categorize_email (JStr longer) = Ok (Some category') /\
    category_rank category' = Some i /\
    category_rank category = Some j /\
    (i <= j)%nat.
Proof.
  rewrite !categorize_email_str. intros [= Hrun] Hocc.
  destruct (category_loop_monotone MicrosoftIntegration.OUTREACH_CATEGORIES
              (Py.lower subject) (Py.lower longer) category outreach_categories_nodup
              (fun k => str_in_occurs k subject longer Hocc) Hrun)
    as (c' & i & j & Hrun' & Hi & Hj & Hle).
  exists c', i, j. rewrite Hrun'. repeat split; assumption.
Qed.

Lemma categorize_email_extended_witness :
  exists category' i j,
    MicrosoftIntegration.categorize_email (JStr "Fwd: PRICING and a first contact") =
      Ok (Some category') /\
    category_rank category' = Some i /\
    category_rank "contract_deal" = Some j /\
    (i <= j)%nat.
Proof.
  apply (categorize_email_extended "Pricing" "Fwd: PRICING and a first contact"
           "contract_deal").
  - vm_compute. reflexivity.
  - exists "fwd: ", " and a first contact". vm_compute. reflexivity.
Defined.

(* ===================================================================== *)
(** ** The mappers of the classes as declared                            *)
(* ===================================================================== *)

(** The classes of [api/app.py] alone configure. With the classes of
    [api/microsoft_integration.py] on the same [Base] they do not: the
    foreign key of [TrackedEmail.lead_id] names a table [leads], the table
    of [Lead] is [dw_leads], and so no foreign key links the two tables of
    the relationship [TrackedEmail.lead]. It is the only one at fault. *)
Lemma app_classes_configure : Orm.configure Orm.APP_CLASSES = Ok tt.
Proof. vm_compute. reflexivity. Qed.

Lemma base_unjoined : Orm.unjoined Orm.BASE = [("TrackedEmail", "lead")].
Proof. vm_compute. reflexivity. Qed.

Lemma base_configure : Orm.configure Orm.BASE = Raise Py.InvalidRequestError.
Proof. vm_compute. reflexivity. Qed.

(** A query of a session whose mappers do not configure raises, and does
    nothing else. *)
Lemma query_unconfigured (w : World) (e : Py.exn) (st : State) :
  Orm.configure (mapped w) = Raise e -> query w st = (Raise e, st).
Proof. intros H. unfold query. rewrite H. reflexivity. Qed.

Lemma query_base (w : World) (st : State) :
  mapped w = Orm.BASE -> query w st = (Raise Py.InvalidRequestError, st).
Proof. intros H. apply query_unconfigured. rewrite H. exact base_configure. Qed.

(* ===================================================================== *)
(** ** The logging endpoints                                             *)
(* ===================================================================== *)

(** With the classes as declared, a logging request fails at the query of
    the lead, whatever it asks for: the exception leaves the handler,
    which has no [except] clause, and nothing is logged, counted, printed
    or committed. *)
Lemma logging_endpoints_unconfigured (w : World) (e : Py.exn) (lead_id : Z) (data : json)
    (db : DB) :
  Orm.configure (mapped w) = Raise e ->
  App.quick_log_activity w lead_id data (get_session db) = (Raise e, get_session db) /\
  App.create_log w lead_id data (get_session db) = (Raise e, get_session db).
Proof.
  intros H.
  unfold App.quick_log_activity, App.quick_log_activity_with, App.create_log,
    App.create_log_with, App.query_lead, finally_close.
  split; run_m; rewrite (query_unconfigured w e _ H); reflexivity.
Qed.





Lemma eq_str_true (v : json) (s : string) : Py.eq_str v s = true <-> v = JStr s.
Proof.
  destruct v; simpl; try (split; [discriminate | intros [=]]).
  rewrite String.eqb_eq. split; [intros ->; reflexivity | intros [= ->]; reflexivity].
Qed.



(** The table of the call sites, row by row. *)
Lemma proposed_for_table :
  (forall outcome, outcome = JStr "Connected" \/ outcome = JStr "Interested" ->
     proposed_for (JStr "Call") outcome = Some "Connected") /\
  (forall outcome, outcome <> JStr "Connected" -> outcome <> JStr "Interested" ->
     proposed_for (JStr "Call") outcome = Some "Attempted") /\
  (forall outcome, proposed_for (JStr "Email") outcome = Some "Attempted") /\
  (forall outcome, proposed_for (JStr "Meeting") outcome = Some "Connected") /\
  (forall outcome, proposed_for (JStr "Note") outcome = None) /\
  (forall outcome, proposed_for (JStr "Task") outcome = None).
Proof.
  repeat split; try reflexivity.
  - intros outcome [-> | ->]; reflexivity.
  - intros outcome H1 H2. unfold proposed_for. simpl.
    destruct (Py.eq_str outcome "Connected") eqn:E1;
      [apply eq_str_true in E1; contradiction|].
    destruct (Py.eq_str outcome "Interested") eqn:E2;
      [apply eq_str_true in E2; contradiction|].
    reflexivity.
Qed.







(** C3: the classes as declared break the logging endpoints. With the
    classes that the import of [api/app.py] maps, a Call with outcome
    'Interested' logged on an existing lead through either endpoint
    raises at the query of the lead: the exception leaves the handler, no
    log is written, the activity is not counted and the rule is not
    invoked (nothing is printed, the session is as it was). Apart from
    that, in a process that maps the classes of [api/app.py] alone, the
    same request on a lead whose activity count is NULL raises a
    [TypeError] at the count, again before the rule. *)
Theorem logging_endpoints_as_declared :
  mapped offline_world = Orm.BASE /\
  Orm.unjoined Orm.BASE = [("TrackedEmail", "lead")] /\
  App.quick_log_activity offline_world 7 (JObj call_interested)
    (get_session (one_lead_db (Some "Attempted"))) =
    (Raise Py.InvalidRequestError, get_session (one_lead_db (Some "Attempted"))) /\
  App.create_log offline_world 7 (JObj call_interested)
    (get_session (one_lead_db (Some "Attempted"))) =
    (Raise Py.InvalidRequestError, get_session (one_lead_db (Some "Attempted"))) /\
  Orm.configure (mapped app_only_world) = Ok tt /\
  App.quick_log_activity app_only_world 9 (JObj call_interested) (get_session uncounted_db) =
    (Raise Py.TypeError, get_session uncounted_db) /\
  App.create_log app_only_world 9 (JObj call_interested) (get_session uncounted_db) =
    (Raise Py.TypeError, get_session uncounted_db).
Proof.
  split; [reflexivity|]. split; [exact base_unjoined|].
  destruct (logging_endpoints_unconfigured offline_world Py.InvalidRequestError 7
              (JObj call_interested) (one_lead_db (Some "Attempted")) base_configure)
    as [Hquick Hcreate].
  split; [exact Hquick|]. split; [exact Hcreate|].
  split; [exact app_classes_configure|].
  split; vm_compute; reflexivity.
Qed.



(* ===================================================================== *)
(** ** The send endpoint                                                  *)
(* ===================================================================== *)

(** With mappers that do not configure the send endpoint fails at the
    query of the email, whatever the email: no call is made and nothing is
    committed. *)
Lemma send_email_unconfigured (w : World) (e : Py.exn) (email_id : Z) (db : DB) :
  Orm.configure (mapped w) = Raise e ->
  App.send_email w email_id (get_session db) = send_email_failed e db.
Proof.
  intros H. unfold App.send_email, App.query_email, send_email_failed, get_session.
  run_m. rewrite (query_unconfigured w e _ H). reflexivity.
Qed.

(** C10: the classes as declared break the status gate of the send
    endpoint. With the classes that the import of [api/app.py] maps, a
    send request for a draft is answered 500 from the [except] clause, not
    400: the query of the email raises before the status is looked at. No
    send is performed. A send request for an email in 'pending_review' is
    answered the same way, although the provider would accept the message:
    no call is made and the email stays as it is. *)
Theorem send_email_as_declared :
  mapped accepting_world = Orm.BASE /\
  App.send_email accepting_world 5 (get_session (outbox_db "draft")) =
    (Ok (ExceptionBody "" Py.InvalidRequestError, 500),
     mkState (outbox_db "draft") (outbox_db "draft")
       ["Send email exception: InvalidRequestError"] []) /\
  App.send_email accepting_world 5 (get_session (outbox_db "pending_review")) =
    (Ok (ExceptionBody "" Py.InvalidRequestError, 500),
     mkState (outbox_db "pending_review") (outbox_db "pending_review")
       ["Send email exception: InvalidRequestError"] []).
Proof.
  split; [reflexivity|].
  split; apply (send_email_unconfigured accepting_world Py.InvalidRequestError 5 _
                  base_configure).
Qed.

(* ===================================================================== *)
(** ** The reply tracker                                                 *)
(* ===================================================================== *)


(** *** The scan for one sent email *)




















(** With mappers that do not configure the reply tracker fails at the
    query of the token, when the Microsoft models exist: the [except]
    clause answers 500, no call is made and nothing is committed. *)
Lemma check_email_replies_unconfigured (w : World) (e : Py.exn) (db : DB) :
  Orm.configure (mapped w) = Raise e ->
  microsoft_models w = true ->
  App.check_email_replies w (get_session db) =
    (Ok (ExceptionBody "" e, 500),
     mkState db db ["Check replies error: " +:+ Py.str_exn e] []).
Proof.
  intros H Hmodels. unfold App.check_email_replies, App.acquire_token, get_session.
  rewrite Hmodels. cbn [negb]. run_m. rewrite (query_unconfigured w e _ H). reflexivity.
Qed.

(** C6: the classes as declared break the reply matcher. The sample sent
    email awaits a reply and the inbox holds one: its second message is
    the first that matches. With the classes that the import of
    [api/app.py] maps, the run fails at its first query and is answered
    500 from the [except] clause: the inbox is not fetched, no message is
    scanned, and the sent email keeps reply_status 'no_reply', without
    replied_at and reply_snippet. *)
Theorem check_email_replies_as_declared :
  mapped (mail_world acme_inbox 1704500000) = Orm.BASE /\
  awaiting (mail_world acme_inbox 1704500000) acme_db = [acme_email] /\
  first_reply acme_email acme_inbox = Ok (Some acme_answer) /\
  App.check_email_replies (mail_world acme_inbox 1704500000) (get_session acme_db) =
    (Ok (ExceptionBody "" Py.InvalidRequestError, 500),
     mkState acme_db acme_db ["Check replies error: InvalidRequestError"] []) /\
  emails acme_db !! 3 = Some acme_email /\
  GeneratedEmail.reply_status acme_email = Some "no_reply" /\
  GeneratedEmail.replied_at acme_email = None /\
  GeneratedEmail.reply_snippet acme_email = None.
Proof.
  split; [reflexivity|]. split; [vm_compute; reflexivity|].
  split; [vm_compute; reflexivity|].
  split; [|repeat split].
  apply (check_email_replies_unconfigured (mail_world acme_inbox 1704500000)
           Py.InvalidRequestError acme_db base_configure eq_refl).
Qed.

